(** * The help subsystem of the IRC daemon (irc/help.go)

    A shallow embedding of [irc/help.go]: the [Help] registry, the index
    generator [GenerateHelpIndex], the framer [sendHelp] and the command
    handler [helpHandler], followed by the properties of the written
    specification that concern them.

    Go strings are byte strings; they are [string]s here, one [ascii] per
    byte.  A client's socket is the list of messages handed to [Send], in
    order (field [outbox]).  The case mapping and the trimming of Go's
    library are taken as given: the handler is read for all functions that
    behave on ASCII text as Go's do (class [strings.Unicode]). *)

From Stdlib Require Import Strings.String Strings.Ascii.
From stdpp Require Import base list sorting strings gmap fin_maps.

Local Open Scope string_scope.
Local Open Scope list_scope.

(** ** The parts of Go's [strings] package that help.go calls *)

Module strings.

Definition LF : ascii := "010"%char.
Definition SP : ascii := " "%char.

(** [strings.Split(s, sep)] for a one-byte separator, which is what both
    call sites pass: the fields between the separators, so that a string
    of n separators has n+1 fields and the empty string has one. *)
Fixpoint Split (s : string) (sep : ascii) : list string :=
  match s with
  | EmptyString => [EmptyString]
  | String c s' =>
      if Ascii.eqb c sep then EmptyString :: Split s' sep
      else match Split s' sep with
           | [] => [String c EmptyString]
           | w :: ws => String c w :: ws
           end
  end.

(** [strings.Join(elems, sep)]. *)
Fixpoint Join (elems : list string) (sep : string) : string :=
  match elems with
  | [] => EmptyString
  | [x] => x
  | x :: xs => x +:+ sep +:+ Join xs sep
  end.

(** [strings.ToLower], [strings.ToUpper] and [strings.TrimSpace] work on
    Unicode text and are no part of this repository.  On a string whose
    bytes are all below 128 they map the letters A-Z and a-z onto each other
    and trim the bytes '\t', '\n', '\v', '\f', '\r' and ' ': that much is
    written out here, byte by byte. *)
Definition lower (c : ascii) : ascii :=
  let n := nat_of_ascii c in
  if (65 <=? n)%nat && (n <=? 90)%nat then ascii_of_nat (n + 32) else c.

Definition upper (c : ascii) : ascii :=
  let n := nat_of_ascii c in
  if (97 <=? n)%nat && (n <=? 122)%nat then ascii_of_nat (n - 32) else c.

Fixpoint Map (f : ascii -> ascii) (s : string) : string :=
  match s with
  | EmptyString => EmptyString
  | String c s' => String (f c) (Map f s')
  end.

Definition ToLowerASCII : string -> string := Map lower.
Definition ToUpperASCII : string -> string := Map upper.

Definition isSpace (c : ascii) : bool :=
  let n := nat_of_ascii c in
  ((9 <=? n)%nat && (n <=? 13)%nat) || (n =? 32)%nat.

Fixpoint TrimLeft (s : string) : string :=
  match s with
  | EmptyString => EmptyString
  | String c s' => if isSpace c then TrimLeft s' else s
  end.

Fixpoint TrimRight (s : string) : string :=
  match s with
  | EmptyString => EmptyString
  | String c s' =>
      match TrimRight s' with
      | EmptyString => if isSpace c then EmptyString else String c EmptyString
      | t => String c t
      end
  end.

Definition TrimSpaceASCII (s : string) : string := TrimRight (TrimLeft s).

(** Every byte of [s] is below 128. *)
Fixpoint is_ascii (s : string) : bool :=
  match s with
  | EmptyString => true
  | String c s' => (nat_of_ascii c <? 128)%nat && is_ascii s'
  end.

(** The three functions as help.go gets them from Go: any functions that
    do on ASCII strings what is written out above.  What they do to other
    strings (letters beyond ASCII, Unicode white space, bytes that are no
    UTF-8) is left open, so that what is proved of the handler holds of it
    with Go's own functions. *)
Class Unicode : Type := {
  ToLower : string -> string;
  ToUpper : string -> string;
  TrimSpace : string -> string;
  ToLower_ascii : forall s, is_ascii s = true -> ToLower s = ToLowerASCII s;
  ToUpper_ascii : forall s, is_ascii s = true -> ToUpper s = ToUpperASCII s;
  TrimSpace_ascii :
    forall s, is_ascii s = true -> TrimSpace s = TrimSpaceASCII s
}.

(** The ASCII functions themselves are such functions; the examples run
    the code with them, on requests of ASCII bytes. *)
Global Instance ASCII : Unicode := {|
  ToLower := ToLowerASCII;
  ToUpper := ToUpperASCII;
  TrimSpace := TrimSpaceASCII;
  ToLower_ascii := fun _ _ => eq_refl;
  ToUpper_ascii := fun _ _ => eq_refl;
  TrimSpace_ascii := fun _ _ => eq_refl
|}.

(** [c] occurs in [s]. *)
Fixpoint Contains (s : string) (c : ascii) : bool :=
  match s with
  | EmptyString => false
  | String d s' => Ascii.eqb d c || Contains s' c
  end.

End strings.

(** ** The outbound side of a client *)

(** The numerics are declared in numerics.go; they stay symbolic. *)
Inductive Numeric : Set :=
  | RPL_HELPSTART
  | RPL_HELPTXT
  | RPL_ENDOFHELP
  | ERR_HELPNOTFOUND.

(** One line given to [client.Send(tags, prefix, command, params...)]. *)
Record Line : Set := MkLine {
  prefix : string;
  command : Numeric;
  params : list string
}.

Record Server : Set := { name : string }.

(** modes.go is outside this file; help.go reads the one key [Operator]. *)
Inductive UserMode : Set := Operator | OtherMode (c : ascii).

Record Client : Type := {
  server : Server;
  flags : UserMode -> bool;
  outbox : list Line
}.

(** The message as parsed by the protocol layer; only [Params] is read. *)
Record IrcMessage : Set := { Params : list string }.

Definition Send (client : Client) (pfx : string) (cmd : Numeric)
    (args : list string) : Client :=
  {| server := server client;
     flags := flags client;
     outbox := outbox client ++ [MkLine pfx cmd args] |}.

(** ** sendHelp *)

(** The body of [for i, line := range textLines]. *)
Fixpoint sendHelp_range (splitName : list string) (i : nat)
    (textLines : list string) (client : Client) : Client :=
  match textLines with
  | [] => client
  | line :: rest =>
      let args := splitName ++ [line] in
      let client :=
        if (i =? 0)%nat
        then Send client (name (server client)) RPL_HELPSTART args
        else Send client (name (server client)) RPL_HELPTXT args in
      sendHelp_range splitName (S i) rest client
  end.

Definition sendHelp (client : Client) (name_ : string) (text : string)
    : Client :=
  let splitName := strings.Split name_ strings.SP in
  let textLines := strings.Split text strings.LF in
  let client := sendHelp_range splitName 0 textLines client in
  let args := splitName ++ ["End of /HELPOP"] in
  Send client (name (server client)) RPL_ENDOFHELP args.

(** ** The registry *)

(** [HelpEntryType] is an [int] in Go; only its three declared constants
    are ever built, and [GenerateHelpIndex] tests for exactly these. *)
Inductive HelpEntryType : Set :=
  | CommandHelpEntry
  | InformationHelpEntry
  | ISupportHelpEntry.

Record HelpEntry : Set := {
  oper : bool;
  text : string;
  helpType : HelpEntryType;
  duplicate : bool
}.

(** The double quote, for the help texts that contain one. *)
Definition DQ : string := String "034"%char EmptyString.

(** The literal of [var Help], entry by entry in the order of the source;
    a field the source leaves out has Go's zero value ([false],
    [CommandHelpEntry]).  The texts are the raw string literals, byte for
    byte. *)

Definition cmodeHelpText : string :=
"== Channel Modes ==

Oragono supports the following channel modes:

  +b  |  Client masks that are banned from the channel (e.g. *!*@127.0.0.1)
  +e  |  Client masks that are exempted from bans.
  +I  |  Client masks that are exempted from the invite-only flag.
  +i  |  Invite-only mode, only invited clients can join the channel.
  +k  |  Key required when joining the channel.
  +l  |  Client join limit for the channel.
  +m  |  Moderated mode, only privileged clients can talk on the channel.
  +n  |  No-outside-messages mode, only users that are on the channel can send
      |  messages to it.
  +r  |  Only registered users can talk in the channel.
  +s  |  Secret mode, channel won't show up in /LIST or whois replies.
  +t  |  Only channel opers can modify the topic.

= Prefixes =

  +q (~)  |  Founder channel mode.
  +a (&)  |  Admin channel mode.
  +o (@)  |  Operator channel mode.
  +h (%)  |  Halfop channel mode.
  +v (+)  |  Voice channel mode.".

Definition umodeHelpText : string :=
"== User Modes ==

Oragono supports the following user modes:

  +a  |  User is marked as being away. This mode is set with the /AWAY command.
  +i  |  User is marked as invisible (their channels are hidden from whois replies).
  +o  |  User is an IRC operator.
  +s  |  Server Notice Masks (see help with /HELPOP snomasks).
  +Z  |  User is connected via TLS.".

Definition snomaskHelpText : string :=
"== Server Notice Masks ==

Oragono supports the following server notice masks for operators:

  a  |  Local announcements.
  c  |  Local client connections.
  j  |  Local channel actions.
  k  |  Local kills.
  n  |  Local nick changes.
  o  |  Local oper actions.
  q  |  Local quits.
  t  |  Local /STATS usage.
  u  |  Local client account actions.
  x  |  Local X-lines (DLINE/KLINE/etc).

To set a snomask, do this with your nickname:

  /MODE <nick> +s <chars>

For instance, this would set the kill, oper, account and xline snomasks on dan:

  /MODE dan +s koux".

Definition Help_literal : list (string * HelpEntry) := [
  ("acc", {|
    oper := false;
    text :=
"ACC REGISTER <accountname> [callback_namespace:]<callback> [cred_type] :<credential>
ACC VERIFY <accountname> <auth_code>

Used in account registration. See the relevant specs for more info:
http://oragono.io/specs.html";
    helpType := CommandHelpEntry;
    duplicate := false |});
  ("ambiance", {|
    oper := false;
    text :=
"AMBIANCE <target> <text to be sent>

The AMBIANCE command is used to send a scene notification to the given target.";
    helpType := CommandHelpEntry;
    duplicate := false |});
  ("authenticate", {|
    oper := false;
    text :=
"AUTHENTICATE

Used during SASL authentication. See the IRCv3 specs for more info:
http://ircv3.net/specs/extensions/sasl-3.1.html";
    helpType := CommandHelpEntry;
    duplicate := false |});
  ("away", {|
    oper := false;
    text :=
"AWAY [message]

If [message] is sent, marks you away. If [message] is not sent, marks you no
longer away.";
    helpType := CommandHelpEntry;
    duplicate := false |});
  ("cap", {|
    oper := false;
    text :=
"CAP <subcommand> [:<capabilities>]

Used in capability negotiation. See the IRCv3 specs for more info:
http://ircv3.net/specs/core/capability-negotiation-3.1.html
http://ircv3.net/specs/core/capability-negotiation-3.2.html";
    helpType := CommandHelpEntry;
    duplicate := false |});
  ("chanserv", {|
    oper := false;
    text :=
"CHANSERV <subcommand> [params]

ChanServ controls channel registrations.";
    helpType := CommandHelpEntry;
    duplicate := false |});
  ("cs", {|
    oper := false;
    text :=
"CS <subcommand> [params]

ChanServ controls channel registrations.";
    helpType := CommandHelpEntry;
    duplicate := false |});
  ("debug", {|
    oper := true;
    text :=
"DEBUG <option>

Prints debug information about the IRCd. <option> can be one of:

* GCSTATS: Garbage control statistics.
* NUMGOROUTINE: Number of goroutines in use.
* STARTCPUPROFILE: Starts the CPU profiler.
* STOPCPUPROFILE: Stops the CPU profiler.
* PROFILEHEAP: Writes out the CPU profiler info.";
    helpType := CommandHelpEntry;
    duplicate := false |});
  ("dline", {|
    oper := true;
    text :=
"DLINE [ANDKILL] [MYSELF] [duration] <ip>/<net> [ON <server>] [reason [| oper reason]]

Bans an IP address or network from connecting to the server. If the duration is
given then only for that long. The reason is shown to the user themselves, but
everyone else will see a standard message. The oper reason is shown to
operators getting info about the DLINEs that exist.

Bans are saved across subsequent launches of the server.

" +:+ DQ +:+ "ANDKILL" +:+ DQ +:+ " means that all matching clients are also removed from the server.

" +:+ DQ +:+ "MYSELF" +:+ DQ +:+ " is required when the DLINE matches the address the person applying it is connected
from. If " +:+ DQ +:+ "MYSELF" +:+ DQ +:+ " is not given, trying to DLINE yourself will result in an error.

[duration] can be of the following forms:
	1y 12mo 31d 10h 8m 13s

<net> is specified in typical CIDR notation. For example:
	127.0.0.1/8
	8.8.8.8/24

ON <server> specifies that the ban is to be set on that specific server.

[reason] and [oper reason], if they exist, are separated by a vertical bar (|).";
    helpType := CommandHelpEntry;
    duplicate := false |});
  ("help", {|
    oper := false;
    text :=
"HELP <argument>

Get an explanation of <argument>, or " +:+ DQ +:+ "index" +:+ DQ +:+ " for a list of help topics.";
    helpType := CommandHelpEntry;
    duplicate := false |});
  ("helpop", {|
    oper := false;
    text :=
"HELPOP <argument>

Get an explanation of <argument>, or " +:+ DQ +:+ "index" +:+ DQ +:+ " for a list of help topics.";
    helpType := CommandHelpEntry;
    duplicate := false |});
  ("invite", {|
    oper := false;
    text :=
"INVITE <nickname> <channel>

Invites the given user to the given channel, so long as you have the
appropriate channel privs.";
    helpType := CommandHelpEntry;
    duplicate := false |});
  ("ison", {|
    oper := false;
    text :=
"ISON <nickname>{ <nickname>}

Returns whether the given nicks exist on the network.";
    helpType := CommandHelpEntry;
    duplicate := false |});
  ("join", {|
    oper := false;
    text :=
"JOIN <channel>{,<channel>} [<key>{,<key>}]

Joins the given channels with the matching keys.";
    helpType := CommandHelpEntry;
    duplicate := false |});
  ("kick", {|
    oper := false;
    text :=
"KICK <channel> <user> [reason]

Removes the user from the given channel, so long as you have the appropriate
channel privs.";
    helpType := CommandHelpEntry;
    duplicate := false |});
  ("kill", {|
    oper := true;
    text :=
"KILL <nickname> [reason]

Removes the given user from the network, showing them the reason if it is
supplied.";
    helpType := CommandHelpEntry;
    duplicate := false |});
  ("kline", {|
    oper := true;
    text :=
"KLINE [ANDKILL] [MYSELF] [duration] <mask> [ON <server>] [reason [| oper reason]]

Bans a mask from connecting to the server. If the duration is given then only for that
long. The reason is shown to the user themselves, but everyone else will see a standard
message. The oper reason is shown to operators getting info about the KLINEs that exist.

Bans are saved across subsequent launches of the server.

" +:+ DQ +:+ "ANDKILL" +:+ DQ +:+ " means that all matching clients are also removed from the server.

" +:+ DQ +:+ "MYSELF" +:+ DQ +:+ " is required when the KLINE matches the address the person applying it is connected
from. If " +:+ DQ +:+ "MYSELF" +:+ DQ +:+ " is not given, trying to KLINE yourself will result in an error.

[duration] can be of the following forms:
	1y 12mo 31d 10h 8m 13s

<mask> is specified in typical IRC format. For example:
	dan
	dan!5*@127.*

ON <server> specifies that the ban is to be set on that specific server.

[reason] and [oper reason], if they exist, are separated by a vertical bar (|).";
    helpType := CommandHelpEntry;
    duplicate := false |});
  ("list", {|
    oper := false;
    text :=
"LIST [<channel>{,<channel>}] [<elistcond>{,<elistcond>}]

Shows information on the given channels (or if none are given, then on all
channels). <elistcond>s modify how the channels are selected.";
    helpType := CommandHelpEntry;
    duplicate := false |});
  ("lusers", {|
    oper := false;
    text :=
"LUSERS [<mask> [<server>]]

Shows statistics about the size of the network. If <mask> is given, only
returns stats for servers matching the given mask.  If <server> is given, the
command is processed by that server.";
    helpType := CommandHelpEntry;
    duplicate := false |});
  ("mode", {|
    oper := false;
    text :=
"MODE <target> [<modestring> [<mode arguments>...]]

Sets and removes modes from the given target. For more specific information on
mode characters, see the help for " +:+ DQ +:+ "modes" +:+ DQ +:+ ".";
    helpType := CommandHelpEntry;
    duplicate := false |});
  ("monitor", {|
    oper := false;
    text :=
"MONITOR <subcmd>

Allows the monitoring of nicknames, for alerts when they are online and
offline. The subcommands are:

    MONITOR + target{,target}
Adds the given names to your list of monitored nicknames.

    MONITOR - target{,target}
Removes the given names from your list of monitored nicknames.

    MONITOR C
Clears your list of monitored nicknames.

    MONITOR L
Lists all the nicknames you are currently monitoring.

    MONITOR S
Lists whether each nick in your MONITOR list is online or offline.";
    helpType := CommandHelpEntry;
    duplicate := false |});
  ("motd", {|
    oper := false;
    text :=
"MOTD [server]

Returns the message of the day for this, or the given, server.";
    helpType := CommandHelpEntry;
    duplicate := false |});
  ("names", {|
    oper := false;
    text :=
"NAMES [<channel>{,<channel>}]

Views the clients joined to a channel and their channel membership prefixes. To
view the channel membership prefixes supported by this server, see the help for
" +:+ DQ +:+ "PREFIX" +:+ DQ +:+ ".";
    helpType := CommandHelpEntry;
    duplicate := false |});
  ("nick", {|
    oper := false;
    text :=
"NICK <newnick>

Sets your nickname to the new given one.";
    helpType := CommandHelpEntry;
    duplicate := false |});
  ("nickserv", {|
    oper := false;
    text :=
"NICKSERV <subcommand> [params]

NickServ controls accounts and user registrations.";
    helpType := CommandHelpEntry;
    duplicate := false |});
  ("notice", {|
    oper := false;
    text :=
"NOTICE <target>{,<target>} <text to be sent>

Sends the text to the given targets as a NOTICE.";
    helpType := CommandHelpEntry;
    duplicate := false |});
  ("npc", {|
    oper := false;
    text :=
"NPC <target> <sourcenick> <text to be sent>
		
The NPC command is used to send a message to the target as the source.

Requires the roleplay mode (+E) to be set on the target.";
    helpType := CommandHelpEntry;
    duplicate := false |});
  ("npca", {|
    oper := false;
    text :=
"NPCA <target> <sourcenick> <text to be sent>
		
The NPC command is used to send an action to the target as the source.

Requires the roleplay mode (+E) to be set on the target.";
    helpType := CommandHelpEntry;
    duplicate := false |});
  ("ns", {|
    oper := false;
    text :=
"NS <subcommand> [params]

NickServ controls accounts and user registrations.";
    helpType := CommandHelpEntry;
    duplicate := false |});
  ("oper", {|
    oper := false;
    text :=
"OPER <name> <password>

If the correct details are given, gives you IRCop privs.";
    helpType := CommandHelpEntry;
    duplicate := false |});
  ("part", {|
    oper := false;
    text :=
"PART <channel>{,<channel>} [reason]

Leaves the given channels and shows people the given reason.";
    helpType := CommandHelpEntry;
    duplicate := false |});
  ("pass", {|
    oper := false;
    text :=
"PASS <password>

When the server requires a connection password to join, used to send us the
password.";
    helpType := CommandHelpEntry;
    duplicate := false |});
  ("ping", {|
    oper := false;
    text :=
"PING <args>...

Requests a PONG. Used to check link connectivity.";
    helpType := CommandHelpEntry;
    duplicate := false |});
  ("pong", {|
    oper := false;
    text :=
"PONG <args>...

Replies to a PING. Used to check link connectivity.";
    helpType := CommandHelpEntry;
    duplicate := false |});
  ("privmsg", {|
    oper := false;
    text :=
"PRIVMSG <target>{,<target>} <text to be sent>

Sends the text to the given targets as a PRIVMSG.";
    helpType := CommandHelpEntry;
    duplicate := false |});
  ("rename", {|
    oper := false;
    text :=
"RENAME <channel> <newname> [<reason>]

Renames the given channel with the given reason, if possible.

For example:
	RENAME #ircv2 #ircv3 :Protocol upgrades!";
    helpType := CommandHelpEntry;
    duplicate := false |});
  ("sanick", {|
    oper := true;
    text :=
"SANICK <currentnick> <newnick>

Gives the given user a new nickname.";
    helpType := CommandHelpEntry;
    duplicate := false |});
  ("samode", {|
    oper := true;
    text :=
"SAMODE <target> [<modestring> [<mode arguments>...]]

Forcibly sets and removes modes from the given target -- only available to
opers. For more specific information on mode characters, see the help for
" +:+ DQ +:+ "cmode" +:+ DQ +:+ " and " +:+ DQ +:+ "umode" +:+ DQ +:+ ".";
    helpType := CommandHelpEntry;
    duplicate := false |});
  ("scene", {|
    oper := false;
    text :=
"SCENE <target> <text to be sent>

The SCENE command is used to send a scene notification to the given target.";
    helpType := CommandHelpEntry;
    duplicate := false |});
  ("tagmsg", {|
    oper := false;
    text :=
"@+client-only-tags TAGMSG <target>{,<target>}

Sends the given client-only tags to the given targets as a TAGMSG. See the IRCv3
specs for more info: http://ircv3.net/specs/core/message-tags-3.3.html";
    helpType := CommandHelpEntry;
    duplicate := false |});
  ("quit", {|
    oper := false;
    text :=
"QUIT [reason]

Indicates that you're leaving the server, and shows everyone the given reason.";
    helpType := CommandHelpEntry;
    duplicate := false |});
  ("rehash", {|
    oper := true;
    text :=
"REHASH

Reloads the config file and updates TLS certificates on listeners";
    helpType := CommandHelpEntry;
    duplicate := false |});
  ("time", {|
    oper := false;
    text :=
"TIME [server]

Shows the time of the current, or the given, server.";
    helpType := CommandHelpEntry;
    duplicate := false |});
  ("topic", {|
    oper := false;
    text :=
"TOPIC <channel> [topic]

If [topic] is given, sets the topic in the channel to that. If [topic] is not
given, views the current topic on the channel.";
    helpType := CommandHelpEntry;
    duplicate := false |});
  ("undline", {|
    oper := true;
    text :=
"UNDLINE <ip>/<net>

Removes an existing ban on an IP address or a network.

<net> is specified in typical CIDR notation. For example:
	127.0.0.1/8
	8.8.8.8/24";
    helpType := CommandHelpEntry;
    duplicate := false |});
  ("unkline", {|
    oper := true;
    text :=
"UNKLINE <mask>

Removes an existing ban on a mask.

For example:
	dan
	dan!5*@127.*";
    helpType := CommandHelpEntry;
    duplicate := false |});
  ("user", {|
    oper := false;
    text :=
"USER <username> 0 * <realname>

Used in connection registration, sets your username and realname to the given
values (though your username may also be looked up with Ident).";
    helpType := CommandHelpEntry;
    duplicate := false |});
  ("userhost", {|
    oper := false;
    text :=
"USERHOST <nickname>{ <nickname>}
		
Shows information about the given users. Takes up to 10 nicknames.";
    helpType := CommandHelpEntry;
    duplicate := false |});
  ("version", {|
    oper := false;
    text :=
"VERSION [server]

Views the version of software and the RPL_ISUPPORT tokens for the given server.";
    helpType := CommandHelpEntry;
    duplicate := false |});
  ("who", {|
    oper := false;
    text :=
"WHO <name> [o]

Returns information for the given user.";
    helpType := CommandHelpEntry;
    duplicate := false |});
  ("whois", {|
    oper := false;
    text :=
"WHOIS <client>{,<client>}

Returns information for the given user(s).";
    helpType := CommandHelpEntry;
    duplicate := false |});
  ("whowas", {|
    oper := false;
    text :=
"WHOWAS <nickname>

Returns historical information on the last user with the given nickname.";
    helpType := CommandHelpEntry;
    duplicate := false |});
  ("modes", {|
    oper := false;
    text :=
cmodeHelpText +:+ String strings.LF (String strings.LF EmptyString) +:+ umodeHelpText;
    helpType := InformationHelpEntry;
    duplicate := false |});
  ("cmode", {|
    oper := false;
    text :=
cmodeHelpText;
    helpType := InformationHelpEntry;
    duplicate := false |});
  ("cmodes", {|
    oper := false;
    text :=
cmodeHelpText;
    helpType := InformationHelpEntry;
    duplicate := true |});
  ("umode", {|
    oper := false;
    text :=
umodeHelpText;
    helpType := InformationHelpEntry;
    duplicate := false |});
  ("umodes", {|
    oper := false;
    text :=
umodeHelpText;
    helpType := InformationHelpEntry;
    duplicate := true |});
  ("snomask", {|
    oper := true;
    text :=
snomaskHelpText;
    helpType := InformationHelpEntry;
    duplicate := true |});
  ("snomasks", {|
    oper := true;
    text :=
snomaskHelpText;
    helpType := InformationHelpEntry;
    duplicate := false |});
  ("casemapping", {|
    oper := false;
    text :=
"RPL_ISUPPORT CASEMAPPING

Oragono supports an experimental unicode casemapping designed for extended
Unicode support. This casemapping is based off RFC 7613 and the draft rfc7613
casemapping spec here: http://oragono.io/specs.html";
    helpType := ISupportHelpEntry;
    duplicate := false |});
  ("prefix", {|
    oper := false;
    text :=
"RPL_ISUPPORT PREFIX

Oragono supports the following channel membership prefixes:

  +q (~)  |  Founder channel mode.
  +a (&)  |  Admin channel mode.
  +o (@)  |  Operator channel mode.
  +h (%)  |  Halfop channel mode.
  +v (+)  |  Voice channel mode.";
    helpType := ISupportHelpEntry;
    duplicate := false |})
].

Definition Help_init : gmap string HelpEntry := list_to_map Help_literal.

(** ** The package-level variables of help.go *)

Record Package : Type := {
  Help : gmap string HelpEntry;
  HelpIndex : string;
  HelpIndexOpers : string
}.

(** Their values as help.go declares them. *)
Definition package_init : Package :=
  {| Help := Help_init;
     HelpIndex := "list of all help topics for regular users";
     HelpIndexOpers := "list of all help topics for opers" |}.

(** ** GenerateHelpIndex *)

(** [range Help] yields the entries of the map in an order Go leaves open:
    [iter] below is that order, any arrangement of the map's entries. *)
Definition ranges (m : gmap string HelpEntry)
    (iter : list (string * HelpEntry)) : Prop :=
  iter ≡ₚ map_to_list m.

(** [sort.Strings]: increasing byte order.  The order is total and
    antisymmetric, so the sorted list does not depend on the algorithm
    (lemma [sort_Strings_unique]); stdpp's merge sort stands for Go's. *)
Definition sort_Strings (a : list string) : list string :=
  merge_sort String.le a.

Record Buckets : Set := {
  commands : list string;
  isupport : list string;
  information : list string
}.

(** One turn of the loop over [Help]. *)
Definition GenerateHelpIndex_step (forOpers : bool) (b : Buckets)
    (kv : string * HelpEntry) : Buckets :=
  let '(name, info) := kv in
  if duplicate info then b
  else if oper info && negb forOpers then b
  else
    let line := "   " +:+ name in
    match helpType info with
    | CommandHelpEntry =>
        {| commands := commands b ++ [line];
           isupport := isupport b;
           information := information b |}
    | ISupportHelpEntry =>
        {| commands := commands b;
           isupport := isupport b ++ [line];
           information := information b |}
    | InformationHelpEntry =>
        {| commands := commands b;
           isupport := isupport b;
           information := information b ++ [line] |}
    end.

(** The three slices after the loop and the three sorts. *)
Definition GenerateHelpIndex_sorted (iter : list (string * HelpEntry))
    (forOpers : bool) : Buckets :=
  let b := fold_left (GenerateHelpIndex_step forOpers) iter
             {| commands := []; isupport := []; information := [] |} in
  {| commands := sort_Strings (commands b);
     isupport := sort_Strings (isupport b);
     information := sort_Strings (information b) |}.

(** The template with its three [%s] filled in. *)
Definition newHelpIndex (c i f : string) : string :=
"= Help Topics =

Commands:
" +:+ c +:+ "

RPL_ISUPPORT Tokens:
" +:+ i +:+ "

Information:
" +:+ f.

Definition NL : string := String strings.LF EmptyString.

Definition GenerateHelpIndex (iter : list (string * HelpEntry))
    (forOpers : bool) : string :=
  let b := GenerateHelpIndex_sorted iter forOpers in
  newHelpIndex (strings.Join (commands b) NL)
               (strings.Join (isupport b) NL)
               (strings.Join (information b) NL).

(** ** helpHandler *)

Definition usage : string :=
"HELPOP <argument>

Get an explanation of <argument>, or " +:+ DQ +:+ "index" +:+ DQ +:+ " for a list of help topics.".

(** The zero value a failed map read gives. *)
Definition HelpEntry_zero : HelpEntry :=
  {| oper := false; text := EmptyString;
     helpType := CommandHelpEntry; duplicate := false |}.

Definition helpHandler `{!strings.Unicode} (pkg : Package) (server : Server)
    (client : Client) (msg : IrcMessage) : bool * Client :=
  let argument :=
    strings.ToLower (strings.TrimSpace (strings.Join (Params msg) " ")) in
  if (String.length argument <? 1)%nat then
    (false, sendHelp client "HELPOP" usage)
  else if String.eqb argument "index" then
    if flags client Operator
    then (false, sendHelp client "HELP" (HelpIndexOpers pkg))
    else (false, sendHelp client "HELP" (HelpIndex pkg))
  else
    let '(helpHandler, exists_) :=
      match Help pkg !! argument with
      | Some e => (e, true)
      | None => (HelpEntry_zero, false)
      end in
    if exists_ && (negb (oper helpHandler)
                   || (oper helpHandler && flags client Operator))
    then (false, sendHelp client (strings.ToUpper argument) (text helpHandler))
    else
      let args := Params msg ++ ["Help not found"] in
      (false, Send client (name server) ERR_HELPNOTFOUND args).

(** Modelled from the spec: the assignment of the two index variables once
    the registry exists, which the server does at start and which is not
    part of help.go.  [iter] and [iter'] are the orders in which the two
    calls range over [Help]. *)
Definition memoize (pkg : Package) (iter iter' : list (string * HelpEntry))
    : Package :=
  {| Help := Help pkg;
     HelpIndex := GenerateHelpIndex iter false;
     HelpIndexOpers := GenerateHelpIndex iter' true |}.

(** ** The vocabulary of the statements *)

(** What a call has handed to the client's socket. *)
Definition sent (before after : Client) : list Line :=
  drop (length (outbox before)) (outbox after).

(** A server and a client to run the code on. *)
Definition example_server : Server := {| name := "oragono.test" |}.

Definition example_client (operator : bool) : Client :=
  {| server := example_server;
     flags := λ mode, match mode with Operator => operator | OtherMode _ => false end;
     outbox := [] |}.

Global Instance HelpEntryType_eq_dec : EqDecision HelpEntryType.
Proof. solve_decision. Defined.

(** The slice that entries of type [T] are appended to. *)
Definition bucket (T : HelpEntryType) (b : Buckets) : list string :=
  match T with
  | CommandHelpEntry => commands b
  | ISupportHelpEntry => isupport b
  | InformationHelpEntry => information b
  end.

(** The entries that get past both [continue]s and have type [T]. *)
Definition listed (forOpers : bool) (T : HelpEntryType) (info : HelpEntry)
    : Prop :=
  duplicate info = false ∧ (oper info = false ∨ forOpers = true) ∧
  helpType info = T.

Global Instance listed_dec forOpers T info : Decision (listed forOpers T info).
Proof. unfold listed. apply _. Defined.

Definition listed_names (forOpers : bool) (T : HelpEntryType)
    (iter : list (string * HelpEntry)) : list string :=
  (filter (λ kv, listed forOpers T kv.2) iter).*1.

(** [s] without its first [k] bytes, and the first [k] bytes of [s]. *)
Fixpoint string_drop (k : nat) (s : string) : string :=
  match k, s with
  | S k', String _ s' => string_drop k' s'
  | _, _ => s
  end.

Fixpoint string_take (k : nat) (s : string) : string :=
  match k with
  | O => EmptyString
  | S k' =>
      match s with
      | EmptyString => EmptyString
      | String c s' => String c (string_take k' s')
      end
  end.

(** The index as its reader has it, a text: an entry line is a line that
    starts with three spaces, and the name it shows is the rest of it. *)
Definition entry_name (line : string) : option string :=
  if String.eqb (string_take 3 line) "   "
  then Some (string_drop 3 line) else None.

(** The names that the text of an index shows, line after line. *)
Definition names_in (index : string) : list string :=
  omap entry_name (strings.Split index strings.LF).

(** The query the handler works on: its local variable [argument]. *)
Definition argument_of `{!strings.Unicode} (msg : IrcMessage) : string :=
  strings.ToLower (strings.TrimSpace (strings.Join (Params msg) " ")).

(** The one error reply. *)
Definition not_found (server : Server) (client : Client) (msg : IrcMessage)
    : bool * Client :=
  (false,
   Send client (name server) ERR_HELPNOTFOUND (Params msg ++ ["Help not found"])).

(** What the lines of a framed text carry after the label: the lines of the
    text, then the closing words, whatever the label. *)
Definition payload (l : Line) : option string := last (params l).

(** The registry of the source without the entry kill. *)
Definition package_without_kill : Package :=
  {| Help := delete "kill" Help_init;
     HelpIndex := HelpIndex package_init;
     HelpIndexOpers := HelpIndexOpers package_init |}.

(** A section of the index read back line by line: its entry lines, or the
    one empty line that an empty section leaves. *)
Definition section_lines (lines : list string) : list string :=
  match lines with
  | [] => [EmptyString]
  | _ :: _ => lines
  end.

(** A package whose registry has one more entry, under a key with a capital
    letter. *)
Definition package_with_capital_key : Package :=
  {| Help := <[ "Kill" := {| oper := false; text := "never shown";
                             helpType := CommandHelpEntry;
                             duplicate := false |} ]> Help_init;
     HelpIndex := HelpIndex package_init;
     HelpIndexOpers := HelpIndexOpers package_init |}.

(** The registry of the source without its entries for operators. *)
Definition package_public : Package :=
  {| Help := filter (λ kv : string * HelpEntry, oper kv.2 = false) Help_init;
     HelpIndex := HelpIndex package_init;
     HelpIndexOpers := HelpIndexOpers package_init |}.

(** Another entry for operators, to store under the key kill. *)
Definition kill_rewritten : HelpEntry :=
  {| oper := true; text := "rewritten";
     helpType := CommandHelpEntry; duplicate := false |}.

(** * Properties *)

(** ** Splitting and joining *)

Section split_join.
Import strings.
Variable sep : ascii.

Lemma Split_not_nil s : Split s sep ≠ [].
Proof.
  destruct s as [|c s]; simpl; [done|].
  destruct (Ascii.eqb c sep); [done|].
  by destruct (Split s sep).
Qed.

Lemma Split_length_pos s : (1 ≤ length (Split s sep))%nat.
Proof.
  pose proof (Split_not_nil s) as H.
  destruct (Split s sep); [done|simpl; lia].
Qed.

(** A string without the separator is a single field. *)
Lemma Split_free s : Contains s sep = false → Split s sep = [s].
Proof.
  induction s as [|c s IH]; simpl; [done|].
  intros [Hc Hs]%orb_false_iff. rewrite Hc, (IH Hs). done.
Qed.

Lemma Split_app_free s t :
  Contains s sep = false →
  Split (s +:+ String sep t) sep = s :: Split t sep.
Proof.
  induction s as [|c s IH]; simpl.
  - intros _. by rewrite Ascii.eqb_refl.
  - intros [Hc Hs]%orb_false_iff. rewrite Hc, (IH Hs). done.
Qed.

(** Splitting undoes joining when no field holds the separator. *)
Lemma Split_Join l rest :
  Forall (λ s, Contains s sep = false) (l :: rest) →
  Split (Join (l :: rest) (String sep EmptyString)) sep = l :: rest.
Proof.
  revert l. induction rest as [|x rest IH]; intros l Hall.
  - simpl. apply Split_free. by inv Hall.
  - inv Hall. change (Join (l :: x :: rest) (String sep EmptyString))
      with (l +:+ String sep (Join (x :: rest) (String sep EmptyString))).
    rewrite Split_app_free by done. f_equal. by apply IH.
Qed.

(** Every string is the join of its fields, and no field holds the
    separator: the fields of a text are its lines. *)
Lemma Split_fields_free s : Forall (λ w, Contains w sep = false) (Split s sep).
Proof.
  induction s as [|c s IH]; simpl.
  - by repeat constructor.
  - destruct (Ascii.eqb c sep) eqn:Hc.
    + by constructor.
    + destruct (Split s sep) as [|w ws]; simpl.
      * repeat constructor. simpl. by rewrite Hc.
      * inv IH. constructor; [|done]. simpl. by rewrite Hc.
Qed.

Lemma Join_Split s : Join (Split s sep) (String sep EmptyString) = s.
Proof.
  induction s as [|c s IH]; simpl; [done|].
  pose proof (Split_not_nil s) as Hne.
  destruct (Ascii.eqb c sep) eqn:Hc.
  - apply Ascii.eqb_eq in Hc as ->.
    destruct (Split s sep) as [|w ws]; [done|].
    simpl in *. by rewrite IH.
  - destruct (Split s sep) as [|w ws]; [done|].
    destruct ws as [|w' ws]; simpl in *; by rewrite <- IH.
Qed.
End split_join.

(** ** The framer *)

Lemma sent_app before after ls :
  outbox after = outbox before ++ ls → sent before after = ls.
Proof. unfold sent. intros ->. by rewrite drop_app_length. Qed.

Lemma Send_server client pfx cmd args :
  server (Send client pfx cmd args) = server client.
Proof. done. Qed.

Lemma sendHelp_range_server splitName textLines : ∀ i client,
  server (sendHelp_range splitName i textLines client) = server client.
Proof.
  induction textLines as [|line rest IH]; intros i client; simpl; [done|].
  rewrite IH. by destruct (i =? 0)%nat.
Qed.

Lemma sendHelp_range_flags splitName textLines : ∀ i client,
  flags (sendHelp_range splitName i textLines client) = flags client.
Proof.
  induction textLines as [|line rest IH]; intros i client; simpl; [done|].
  rewrite IH. by destruct (i =? 0)%nat.
Qed.

(** From the second turn of the loop on, every line goes out as HELPTXT. *)
Lemma sendHelp_range_outbox_S splitName textLines : ∀ i client,
  outbox (sendHelp_range splitName (S i) textLines client) =
  outbox client ++
  map (λ line, MkLine (name (server client)) RPL_HELPTXT (splitName ++ [line]))
      textLines.
Proof.
  induction textLines as [|line rest IH]; intros i client; simpl.
  - by rewrite app_nil_r.
  - rewrite IH. simpl. by rewrite <- app_assoc.
Qed.

Lemma sendHelp_range_outbox_0 splitName line rest client :
  outbox (sendHelp_range splitName 0 (line :: rest) client) =
  outbox client ++
  MkLine (name (server client)) RPL_HELPSTART (splitName ++ [line]) ::
  map (λ line, MkLine (name (server client)) RPL_HELPTXT (splitName ++ [line]))
      rest.
Proof.
  simpl. rewrite sendHelp_range_outbox_S. simpl. by rewrite <- app_assoc.
Qed.

(** The lines of one call of [sendHelp], from the fields of the text. *)
Lemma sendHelp_outbox client name_ text line rest :
  strings.Split text strings.LF = line :: rest →
  outbox (sendHelp client name_ text) =
  outbox client ++
  MkLine (name (server client)) RPL_HELPSTART
         (strings.Split name_ strings.SP ++ [line]) ::
  map (λ l, MkLine (name (server client)) RPL_HELPTXT
                   (strings.Split name_ strings.SP ++ [l])) rest ++
  [MkLine (name (server client)) RPL_ENDOFHELP
          (strings.Split name_ strings.SP ++ ["End of /HELPOP"])].
Proof.
  intros Hsplit. unfold sendHelp. rewrite Hsplit.
  cbn [Send outbox]. rewrite sendHelp_range_server, sendHelp_range_outbox_0.
  by rewrite <- app_assoc.
Qed.

Lemma sendHelp_server client name_ text :
  server (sendHelp client name_ text) = server client.
Proof. unfold sendHelp. cbn [Send server]. apply sendHelp_range_server. Qed.

Lemma sendHelp_flags client name_ text :
  flags (sendHelp client name_ text) = flags client.
Proof. unfold sendHelp. cbn [Send flags]. apply sendHelp_range_flags. Qed.

Lemma sendHelp_sent_length client name_ text :
  length (sent client (sendHelp client name_ text)) =
  (length (strings.Split text strings.LF) + 1)%nat.
Proof.
  destruct (strings.Split text strings.LF) as [|line rest] eqn:Hsplit.
  { by destruct (Split_not_nil strings.LF text). }
  rewrite (sent_app _ _ _ (sendHelp_outbox _ name_ _ _ _ Hsplit)).
  simpl. rewrite length_app, length_map. simpl. lia.
Qed.

(** C1: a body of k >= 1 lines, [l :: rest] joined by line feeds, is framed
    as exactly k+1 lines appended to the client's socket in this order: one
    HELPSTART line carrying the first body line, one HELPTXT line for each
    further body line in the order of the body, and one ENDOFHELP line. *)
Theorem sendHelp_frames client name_ l rest :
  Forall (λ s, strings.Contains s strings.LF = false) (l :: rest) →
  outbox (sendHelp client name_ (strings.Join (l :: rest) NL)) =
    outbox client ++
    MkLine (name (server client)) RPL_HELPSTART
           (strings.Split name_ strings.SP ++ [l]) ::
    map (λ x, MkLine (name (server client)) RPL_HELPTXT
                     (strings.Split name_ strings.SP ++ [x])) rest ++
    [MkLine (name (server client)) RPL_ENDOFHELP
            (strings.Split name_ strings.SP ++ ["End of /HELPOP"])]
  ∧ length (sent client (sendHelp client name_ (strings.Join (l :: rest) NL)))
    = (length (l :: rest) + 1)%nat.
Proof.
  intros Hlines.
  pose proof (Split_Join strings.LF l rest Hlines) as Hsplit.
  split.
  - by apply sendHelp_outbox.
  - rewrite sendHelp_sent_length. unfold NL. by rewrite Hsplit.
Qed.

Lemma sendHelp_frames_witness :
  Forall (λ s, strings.Contains s strings.LF = false)
         ["AWAY [message]"; ""; "longer away."]
  ∧ outbox (sendHelp (example_client false) "AWAY"
              (strings.Join ["AWAY [message]"; ""; "longer away."] NL)) =
    [ MkLine "oragono.test" RPL_HELPSTART ["AWAY"; "AWAY [message]"];
      MkLine "oragono.test" RPL_HELPTXT ["AWAY"; ""];
      MkLine "oragono.test" RPL_HELPTXT ["AWAY"; "longer away."];
      MkLine "oragono.test" RPL_ENDOFHELP ["AWAY"; "End of /HELPOP"] ].
Proof.
  assert (Forall (λ s, strings.Contains s strings.LF = false)
                 ["AWAY [message]"; ""; "longer away."]) as Hlines
    by (repeat constructor).
  split; [exact Hlines|].
  exact (proj1 (sendHelp_frames (example_client false) "AWAY"
                  "AWAY [message]" [""; "longer away."] Hlines)).
Defined.

(** The request for away, from a client that is no operator. *)
Example helpHandler_away :
  helpHandler package_init example_server (example_client false)
              {| Params := ["away"] |} =
  (false,
   {| server := example_server;
      flags := flags (example_client false);
      outbox :=
        [ MkLine "oragono.test" RPL_HELPSTART ["AWAY"; "AWAY [message]"];
          MkLine "oragono.test" RPL_HELPTXT ["AWAY"; EmptyString];
          MkLine "oragono.test" RPL_HELPTXT
            ["AWAY";
             "If [message] is sent, marks you away. If [message] is not sent, marks you no"];
          MkLine "oragono.test" RPL_HELPTXT ["AWAY"; "longer away."];
          MkLine "oragono.test" RPL_ENDOFHELP ["AWAY"; "End of /HELPOP"] ] |}).
Proof. vm_compute. reflexivity. Qed.

(** Every text is covered: it is the join of its lines, of which there is
    at least one. *)
Lemma text_lines text :
  ∃ l rest,
    text = strings.Join (l :: rest) NL ∧
    Forall (λ s, strings.Contains s strings.LF = false) (l :: rest).
Proof.
  destruct (strings.Split text strings.LF) as [|l rest] eqn:Hsplit.
  { by destruct (Split_not_nil strings.LF text). }
  exists l, rest. split.
  - rewrite <- Hsplit. unfold NL. by rewrite Join_Split.
  - rewrite <- Hsplit. apply Split_fields_free.
Qed.

(** Against C2 as worded: the closing line reads End of /HELPOP, not End of
    help. *)
Lemma sendHelp_end_text_differs :
  last (outbox (sendHelp (example_client false) "AWAY" "AWAY [message]"))
  = Some (MkLine "oragono.test" RPL_ENDOFHELP ["AWAY"; "End of /HELPOP"])
  ∧ last (outbox (sendHelp (example_client false) "AWAY" "AWAY [message]"))
  ≠ Some (MkLine "oragono.test" RPL_ENDOFHELP ["AWAY"; "End of help"]).
Proof. split; [reflexivity|discriminate]. Qed.

(** C2, amended: whatever the label and the body, [sendHelp] emits exactly
    one ENDOFHELP line, it is the last one, and it carries the label (split
    at its spaces, so a single parameter for a label without a space)
    followed by the fixed text End of /HELPOP. *)
Theorem sendHelp_end client name_ text :
  ∃ before,
    sent client (sendHelp client name_ text) =
      before ++ [MkLine (name (server client)) RPL_ENDOFHELP
                        (strings.Split name_ strings.SP ++ ["End of /HELPOP"])]
    ∧ Forall (λ l, command l ≠ RPL_ENDOFHELP) before
    ∧ (strings.Contains name_ strings.SP = false →
       strings.Split name_ strings.SP ++ ["End of /HELPOP"]
       = [name_; "End of /HELPOP"]).
Proof.
  destruct (strings.Split text strings.LF) as [|line rest] eqn:Hsplit.
  { by destruct (Split_not_nil strings.LF text). }
  eexists (_ :: map _ rest). split; [|split].
  - apply sent_app. rewrite (sendHelp_outbox _ _ _ _ _ Hsplit).
    by rewrite app_comm_cons.
  - constructor; [done|]. apply Forall_map, Forall_true. done.
  - intros Hfree. by rewrite Split_free.
Qed.

(** ** Sorting strings *)

Lemma sort_Strings_Sorted a : Sorted String.le (sort_Strings a).
Proof. apply (Sorted_merge_sort String.le). Qed.

Lemma sort_Strings_Permutation a : sort_Strings a ≡ₚ a.
Proof. apply (merge_sort_Permutation String.le). Qed.

(** A sorted arrangement of [a] is what [sort.Strings] leaves in [a],
    whichever algorithm sorts. *)
Lemma sort_Strings_unique a a' :
  Sorted String.le a' → a' ≡ₚ a → sort_Strings a = a'.
Proof.
  intros Hsorted Hperm.
  apply (Sorted_unique String.le); [apply sort_Strings_Sorted|done|].
  by rewrite sort_Strings_Permutation.
Qed.

Lemma sort_Strings_perm a a' : a ≡ₚ a' → sort_Strings a = sort_Strings a'.
Proof.
  intros Hperm. apply sort_Strings_unique; [apply sort_Strings_Sorted|].
  by rewrite sort_Strings_Permutation.
Qed.

Lemma Ascii_compare_refl c : Ascii.compare c c = Eq.
Proof. unfold Ascii.compare. apply N.compare_refl. Qed.

(** A common prefix does not change the order of two strings. *)
Lemma String_le_prefix p s t : String.le (p +:+ s) (p +:+ t) ↔ String.le s t.
Proof.
  induction p as [|c p IH]; simpl; [done|].
  rewrite <- IH. unfold String.le, String.leb. simpl.
  by rewrite Ascii_compare_refl.
Qed.

Lemma sort_Strings_prefix p a :
  sort_Strings ((λ s, p +:+ s) <$> a) = (λ s, p +:+ s) <$> sort_Strings a.
Proof.
  apply sort_Strings_unique.
  - apply (Sorted_fmap _ String.le String.le); [|apply sort_Strings_Sorted].
    intros s t. by rewrite String_le_prefix.
  - by rewrite sort_Strings_Permutation.
Qed.

(** ** The index *)

Lemma GenerateHelpIndex_step_bucket forOpers T b n info :
  bucket T (GenerateHelpIndex_step forOpers b (n, info)) =
  bucket T b ++ (if decide (listed forOpers T info) then ["   " +:+ n] else []).
Proof.
  unfold GenerateHelpIndex_step, listed.
  destruct info as [o t ty d]; simpl.
  destruct d, o, forOpers, ty, T; simpl;
    repeat case_decide; simpl; rewrite ?app_nil_r; try done; naive_solver.
Qed.

Lemma GenerateHelpIndex_range_bucket forOpers T iter : ∀ b,
  bucket T (fold_left (GenerateHelpIndex_step forOpers) iter b) =
  bucket T b ++ ((λ n, "   " +:+ n) <$> listed_names forOpers T iter).
Proof.
  unfold listed_names.
  induction iter as [|[n info] iter IH]; intros b; cbn [fold_left].
  - simpl. by rewrite app_nil_r.
  - rewrite IH, GenerateHelpIndex_step_bucket, filter_cons. simpl.
    case_decide; simpl; [|by rewrite app_nil_r].
    by rewrite <- app_assoc.
Qed.

(** Each sorted slice holds the lines of the sorted names. *)
Lemma GenerateHelpIndex_sorted_bucket forOpers T iter :
  bucket T (GenerateHelpIndex_sorted iter forOpers) =
  (λ n, "   " +:+ n) <$> sort_Strings (listed_names forOpers T iter).
Proof.
  rewrite <- sort_Strings_prefix.
  pose proof (GenerateHelpIndex_range_bucket forOpers T iter
    {| commands := []; isupport := []; information := [] |}) as Hrange.
  unfold GenerateHelpIndex_sorted.
  destruct T; simpl in *; by rewrite Hrange.
Qed.

Lemma listed_names_perm forOpers T iter iter' :
  iter ≡ₚ iter' → listed_names forOpers T iter ≡ₚ listed_names forOpers T iter'.
Proof. unfold listed_names. by intros ->. Qed.

Lemma Buckets_eq b b' : (∀ T, bucket T b = bucket T b') → b = b'.
Proof.
  intros H. destruct b, b'.
  pose proof (H CommandHelpEntry). pose proof (H ISupportHelpEntry).
  pose proof (H InformationHelpEntry). simpl in *. congruence.
Qed.

Lemma GenerateHelpIndex_sorted_perm forOpers iter iter' :
  iter ≡ₚ iter' →
  GenerateHelpIndex_sorted iter forOpers = GenerateHelpIndex_sorted iter' forOpers.
Proof.
  intros Hperm. apply Buckets_eq. intros T.
  rewrite !GenerateHelpIndex_sorted_bucket. f_equal.
  by apply sort_Strings_perm, listed_names_perm.
Qed.

(** The output does not depend on the order of the range. *)
Lemma GenerateHelpIndex_perm forOpers iter iter' :
  iter ≡ₚ iter' → GenerateHelpIndex iter forOpers = GenerateHelpIndex iter' forOpers.
Proof.
  intros Hperm. unfold GenerateHelpIndex.
  by rewrite (GenerateHelpIndex_sorted_perm forOpers iter iter' Hperm).
Qed.

(** Over a map, the listed names are the keys of the listed entries, once
    each. *)
Lemma listed_names_elem_of m iter forOpers T n :
  ranges m iter →
  n ∈ listed_names forOpers T iter ↔
  ∃ info, m !! n = Some info ∧ listed forOpers T info.
Proof.
  unfold ranges, listed_names. intros ->.
  rewrite list_elem_of_fmap. split.
  - intros [[n' info] [-> [Hl Hin]%list_elem_of_filter]]. simpl in *.
    exists info. by rewrite <- elem_of_map_to_list.
  - intros [info [Hm Hl]]. exists (n, info). split; [done|].
    apply list_elem_of_filter. by rewrite elem_of_map_to_list.
Qed.

Lemma listed_names_NoDup m iter forOpers T :
  ranges m iter → NoDup (listed_names forOpers T iter).
Proof.
  unfold ranges, listed_names. intros ->.
  apply NoDup_fmap_fst.
  - intros n x y [_ Hx%elem_of_map_to_list]%list_elem_of_filter
                 [_ Hy%elem_of_map_to_list]%list_elem_of_filter.
    congruence.
  - apply NoDup_filter, NoDup_map_to_list.
Qed.

(** The keys of the literal are distinct (Go rejects a map literal that
    repeats one), so the order of the source is one order of the range. *)
Lemma Help_literal_NoDup : NoDup Help_literal.*1.
Proof. apply (bool_decide_unpack _). vm_compute. exact I. Qed.

Lemma Help_literal_ranges : ranges Help_init Help_literal.
Proof.
  unfold ranges, Help_init. symmetry.
  apply map_to_list_to_map, Help_literal_NoDup.
Qed.

Lemma Help_literal_reverse_ranges : ranges Help_init (reverse Help_literal).
Proof.
  unfold ranges. rewrite reverse_Permutation. apply Help_literal_ranges.
Qed.

(** C3: whatever [forOpers] and the order of the range, the index is the
    title and then the three headings Commands, RPL_ISUPPORT Tokens and
    Information, each followed by the names of its section, one per line
    after three spaces; the section of a type holds exactly the names of
    the entries of that type that are no duplicate and are open to the
    reader (not for operators, or [forOpers]), each once, in increasing
    byte order. *)
Theorem GenerateHelpIndex_contents m iter forOpers :
  ranges m iter →
  ∃ names : HelpEntryType → list string,
    GenerateHelpIndex iter forOpers =
"= Help Topics =

Commands:
" +:+ strings.Join ((λ n, "   " +:+ n) <$> names CommandHelpEntry) NL +:+ "

RPL_ISUPPORT Tokens:
" +:+ strings.Join ((λ n, "   " +:+ n) <$> names ISupportHelpEntry) NL +:+ "

Information:
" +:+ strings.Join ((λ n, "   " +:+ n) <$> names InformationHelpEntry) NL
    ∧ ∀ T,
        Sorted String.le (names T) ∧ NoDup (names T) ∧
        ∀ n, n ∈ names T ↔
             ∃ info, m !! n = Some info ∧ duplicate info = false ∧
                     (oper info = false ∨ forOpers = true) ∧
                     helpType info = T.
Proof.
  intros Hrange.
  exists (λ T, sort_Strings (listed_names forOpers T iter)). split.
  - unfold GenerateHelpIndex, newHelpIndex.
    by rewrite <- !GenerateHelpIndex_sorted_bucket.
  - intros T. split; [apply sort_Strings_Sorted|]. split.
    + rewrite sort_Strings_Permutation. by eapply listed_names_NoDup.
    + intros n. rewrite sort_Strings_Permutation.
      by apply listed_names_elem_of.
Qed.

Lemma GenerateHelpIndex_contents_witness :
  ranges Help_init Help_literal ∧
  ∃ names : HelpEntryType → list string,
    GenerateHelpIndex Help_literal false =
"= Help Topics =

Commands:
" +:+ strings.Join ((λ n, "   " +:+ n) <$> names CommandHelpEntry) NL +:+ "

RPL_ISUPPORT Tokens:
" +:+ strings.Join ((λ n, "   " +:+ n) <$> names ISupportHelpEntry) NL +:+ "

Information:
" +:+ strings.Join ((λ n, "   " +:+ n) <$> names InformationHelpEntry) NL
    ∧ ∀ T,
        Sorted String.le (names T) ∧ NoDup (names T) ∧
        ∀ n, n ∈ names T ↔
             ∃ info, Help_init !! n = Some info ∧ duplicate info = false ∧
                     (oper info = false ∨ false = true) ∧
                     helpType info = T.
Proof.
  split; [exact Help_literal_ranges|].
  exact (GenerateHelpIndex_contents Help_init Help_literal false
           Help_literal_ranges).
Defined.

(** The three sections of the regular index over the registry of the
    source. *)
Example GenerateHelpIndex_sections_regular :
  GenerateHelpIndex_sorted Help_literal false =
  {| commands := (λ n, "   " +:+ n) <$>
       ["acc"; "ambiance"; "authenticate"; "away"; "cap"; "chanserv"; "cs";
        "help"; "helpop"; "invite"; "ison"; "join"; "kick"; "list";
        "lusers"; "mode"; "monitor"; "motd"; "names"; "nick"; "nickserv";
        "notice"; "npc"; "npca"; "ns"; "oper"; "part"; "pass"; "ping";
        "pong"; "privmsg"; "quit"; "rename"; "scene"; "tagmsg"; "time";
        "topic"; "user"; "userhost"; "version"; "who"; "whois"; "whowas"];
     isupport := (λ n, "   " +:+ n) <$> ["casemapping"; "prefix"];
     information := (λ n, "   " +:+ n) <$> ["cmode"; "modes"; "umode"] |}.
Proof. vm_compute. reflexivity. Qed.

(** ** The index read back line by line *)

Lemma Split_app_sep sep s t :
  strings.Split (s +:+ String sep t) sep =
  strings.Split s sep ++ strings.Split t sep.
Proof.
  induction s as [|c s IH]; simpl.
  - by rewrite Ascii.eqb_refl.
  - rewrite IH. destruct (Ascii.eqb c sep); [done|].
    pose proof (Split_not_nil sep s) as Hne.
    by destruct (strings.Split s sep).
Qed.

(** The lines of the index, whatever the keys hold. *)
Lemma GenerateHelpIndex_Split iter forOpers :
  strings.Split (GenerateHelpIndex iter forOpers) strings.LF =
  ["= Help Topics ="; EmptyString; "Commands:"]
  ++ strings.Split
       (strings.Join (commands (GenerateHelpIndex_sorted iter forOpers)) NL)
       strings.LF
  ++ [EmptyString; "RPL_ISUPPORT Tokens:"]
  ++ strings.Split
       (strings.Join (isupport (GenerateHelpIndex_sorted iter forOpers)) NL)
       strings.LF
  ++ [EmptyString; "Information:"]
  ++ strings.Split
       (strings.Join (information (GenerateHelpIndex_sorted iter forOpers)) NL)
       strings.LF.
Proof.
  unfold GenerateHelpIndex, newHelpIndex.
  generalize (strings.Join (commands (GenerateHelpIndex_sorted iter forOpers)) NL).
  generalize (strings.Join (isupport (GenerateHelpIndex_sorted iter forOpers)) NL).
  generalize (strings.Join (information (GenerateHelpIndex_sorted iter forOpers)) NL).
  intros f i c.
  change (strings.Split
            ("= Help Topics =" +:+ String strings.LF
             (EmptyString +:+ String strings.LF
              ("Commands:" +:+ String strings.LF
               (c +:+ String strings.LF
                (EmptyString +:+ String strings.LF
                 ("RPL_ISUPPORT Tokens:" +:+ String strings.LF
                  (i +:+ String strings.LF
                   (EmptyString +:+ String strings.LF
                    ("Information:" +:+ String strings.LF f))))))))) strings.LF
          = ["= Help Topics ="; EmptyString; "Commands:"]
            ++ strings.Split c strings.LF
            ++ [EmptyString; "RPL_ISUPPORT Tokens:"]
            ++ strings.Split i strings.LF
            ++ [EmptyString; "Information:"]
            ++ strings.Split f strings.LF).
  rewrite !Split_app_sep. reflexivity.
Qed.

(** The lines of a joined section are the lines of its entries. *)
Lemma elem_of_Split_Join x (lines : list string) :
  x ∈ strings.Split (strings.Join lines NL) strings.LF ↔
  (lines = [] ∧ x = EmptyString)
  ∨ ∃ e, e ∈ lines ∧ x ∈ strings.Split e strings.LF.
Proof.
  induction lines as [|e rest IH].
  - simpl. rewrite list_elem_of_singleton. split.
    + intros ->. by left.
    + intros [[_ ->]|(e & He & _)]; [done|]. by apply elem_of_nil in He.
  - destruct rest as [|e' rest].
    + simpl. split.
      * intros Hx. right. exists e. split; [by left|done].
      * intros [[? _]|(e0 & ->%list_elem_of_singleton & Hx)]; done.
    + change (strings.Join (e :: e' :: rest) NL)
        with (e +:+ String strings.LF (strings.Join (e' :: rest) NL)).
      rewrite Split_app_sep, elem_of_app, IH. split.
      * intros [Hx|[[? _]|(e0 & He0 & Hx)]]; [|done|].
        -- right. exists e. split; [by left|done].
        -- right. exists e0. split; [by right|done].
      * intros [[? _]|(e0 & He0 & Hx)]; [done|].
        apply elem_of_cons in He0 as [->|He0]; [by left|].
        right. right. eauto.
Qed.

Lemma string_take_drop k s : string_take k s +:+ string_drop k s = s.
Proof.
  revert s. induction k as [|k IH]; intros s.
  - by destruct s.
  - destruct s as [|c s]; simpl; [done|].
    change (String c (string_take k s +:+ string_drop k s) = String c s).
    by rewrite IH.
Qed.

Lemma entry_name_Some line n :
  entry_name line = Some n ↔ line = "   " +:+ n.
Proof.
  unfold entry_name. split.
  - destruct (String.eqb _ _) eqn:Heq; [|done]. intros [= <-].
    apply String.eqb_eq in Heq. rewrite <- Heq.
    by rewrite string_take_drop.
  - intros ->. reflexivity.
Qed.

Lemma names_in_elem_of index n :
  n ∈ names_in index ↔ ("   " +:+ n) ∈ strings.Split index strings.LF.
Proof.
  unfold names_in. rewrite list_elem_of_omap. split.
  - intros (line & Hin & ->%entry_name_Some). done.
  - intros Hin. exists ("   " +:+ n). split; [done|]. by apply entry_name_Some.
Qed.

(** A name is in the text of the index exactly when an entry that is no
    duplicate and is open to the reader has a line of its key that reads the
    name after three spaces. *)
Lemma names_in_index m iter forOpers n :
  ranges m iter →
  n ∈ names_in (GenerateHelpIndex iter forOpers) ↔
  ∃ k info, m !! k = Some info ∧ duplicate info = false ∧
            (oper info = false ∨ forOpers = true) ∧
            ("   " +:+ n) ∈ strings.Split ("   " +:+ k) strings.LF.
Proof.
  intros Hrange. rewrite names_in_elem_of, GenerateHelpIndex_Split.
  assert (∀ T, ("   " +:+ n) ∈ strings.Split (strings.Join
              (bucket T (GenerateHelpIndex_sorted iter forOpers)) NL) strings.LF
            ↔ ∃ k info, m !! k = Some info ∧ listed forOpers T info ∧
                ("   " +:+ n) ∈ strings.Split ("   " +:+ k) strings.LF) as Hb.
  { intros T. rewrite elem_of_Split_Join, GenerateHelpIndex_sorted_bucket.
    split.
    - intros [[_ ?]|(e & He & Hx)]; [done|].
      apply list_elem_of_fmap in He as (k & -> & Hk).
      rewrite sort_Strings_Permutation in Hk.
      apply (listed_names_elem_of m iter) in Hk as (info & ? & ?); [|done].
      eauto.
    - intros (k & info & Hm & Hl & Hx). right. exists ("   " +:+ k).
      split; [|done]. apply list_elem_of_fmap. exists k. split; [done|].
      rewrite sort_Strings_Permutation.
      apply (listed_names_elem_of m iter); eauto. }
  pose proof (Hb CommandHelpEntry) as Hc.
  pose proof (Hb ISupportHelpEntry) as Hi.
  pose proof (Hb InformationHelpEntry) as Hf.
  cbn [bucket] in Hc, Hi, Hf.
  rewrite !elem_of_app, Hc, Hi, Hf. unfold listed. split.
  - intros [Hh|[H|[Hh|[H|[Hh|H]]]]];
      try (by repeat (apply elem_of_cons in Hh as [Hh|Hh]; [done|]);
              apply elem_of_nil in Hh);
      destruct H as (k & info & ? & (? & ? & ?) & ?); eauto 10.
  - intros (k & info & ? & ? & ? & ?).
    destruct (helpType info) eqn:?;
      [right; left|right; right; right; right; right
      |right; right; right; left]; eauto 10.
Qed.

(** When no key holds a line feed, the names in the text are the keys of
    those entries. *)
Lemma names_in_index_keys m iter forOpers n :
  ranges m iter →
  (∀ k info, m !! k = Some info → strings.Contains k strings.LF = false) →
  n ∈ names_in (GenerateHelpIndex iter forOpers) ↔
  ∃ info, m !! n = Some info ∧ duplicate info = false ∧
          (oper info = false ∨ forOpers = true).
Proof.
  intros Hrange Hfree. rewrite (names_in_index m) by done. split.
  - intros (k & info & Hm & Hd & Ho & Hx).
    rewrite Split_free in Hx by (simpl; eauto).
    apply list_elem_of_singleton in Hx. apply (inj (String.app "   ")) in Hx.
    subst k. eauto.
  - intros (info & Hm & Hd & Ho). exists n, info. do 3 (split; [done|]).
    rewrite Split_free by (simpl; eauto). by left.
Qed.

Lemma Help_init_one_line k info :
  Help_init !! k = Some info → strings.Contains k strings.LF = false.
Proof.
  intros Hin%elem_of_list_to_map_2.
  assert (Forall (λ kv : string * HelpEntry,
            strings.Contains kv.1 strings.LF = false) Help_literal) as Hall
    by (apply (bool_decide_unpack _); vm_compute; exact I).
  exact (proj1 (Forall_forall _ _) Hall (k, info) Hin).
Qed.

(** C4: the names that the text of the regular index shows are among the
    names that the text of the operator index shows; and, no key holding a
    line feed, they are strictly fewer as soon as the registry holds an
    entry for operators that is no duplicate. *)
Theorem index_names_subset m iter iter' :
  ranges m iter → ranges m iter' →
  names_in (GenerateHelpIndex iter false)
    ⊆ names_in (GenerateHelpIndex iter' true)
  ∧ ((∀ k info, m !! k = Some info → strings.Contains k strings.LF = false) →
     (∃ n info, m !! n = Some info ∧ duplicate info = false ∧
                oper info = true) →
     names_in (GenerateHelpIndex iter false)
       ⊂ names_in (GenerateHelpIndex iter' true)).
Proof.
  intros Hrange Hrange'.
  assert (names_in (GenerateHelpIndex iter false)
            ⊆ names_in (GenerateHelpIndex iter' true)) as Hsub.
  { intros n. rewrite (names_in_index m iter), (names_in_index m iter')
      by done.
    intros (k & info & ? & ? & ? & ?). exists k, info. auto. }
  split; [done|]. intros Hfree (n & info & Hm & Hd & Ho). split; [done|].
  intros Hback. assert (n ∈ names_in (GenerateHelpIndex iter false)) as Hn.
  { apply Hback. rewrite (names_in_index_keys m iter') by done. eauto. }
  rewrite (names_in_index_keys m iter) in Hn by done.
  destruct Hn as (info' & Hm' & _ & [Ho'|Ho']); [|done].
  congruence.
Qed.

Lemma index_names_subset_witness :
  ranges Help_init Help_literal ∧
  ranges Help_init (reverse Help_literal) ∧
  names_in (GenerateHelpIndex Help_literal false)
    ⊂ names_in (GenerateHelpIndex (reverse Help_literal) true).
Proof.
  split; [exact Help_literal_ranges|].
  split; [exact Help_literal_reverse_ranges|].
  apply (index_names_subset Help_init Help_literal (reverse Help_literal)
           Help_literal_ranges Help_literal_reverse_ranges).
  - exact Help_init_one_line.
  - exists "kill". eexists. split; [by vm_compute|]. by split.
Defined.

(** The names that the text of the regular index of the source shows. *)
Example names_in_regular_index :
  names_in (GenerateHelpIndex Help_literal false) =
  ["acc"; "ambiance"; "authenticate"; "away"; "cap"; "chanserv"; "cs";
   "help"; "helpop"; "invite"; "ison"; "join"; "kick"; "list";
   "lusers"; "mode"; "monitor"; "motd"; "names"; "nick"; "nickserv";
   "notice"; "npc"; "npca"; "ns"; "oper"; "part"; "pass"; "ping";
   "pong"; "privmsg"; "quit"; "rename"; "scene"; "tagmsg"; "time";
   "topic"; "user"; "userhost"; "version"; "who"; "whois"; "whowas";
   "casemapping"; "prefix"; "cmode"; "modes"; "umode"].
Proof. vm_compute. reflexivity. Qed.

(** C8: for one registry and one value of [forOpers], two calls return the
    same string, whatever the orders [iter] and [iter'] in which the two
    calls range over the map. *)
Theorem GenerateHelpIndex_deterministic m iter iter' forOpers :
  ranges m iter → ranges m iter' →
  GenerateHelpIndex iter forOpers = GenerateHelpIndex iter' forOpers.
Proof.
  unfold ranges. intros Hrange Hrange'.
  apply GenerateHelpIndex_perm. by rewrite Hrange, Hrange'.
Qed.

Lemma GenerateHelpIndex_deterministic_witness :
  ranges Help_init Help_literal ∧
  ranges Help_init (reverse Help_literal) ∧
  GenerateHelpIndex Help_literal true =
  GenerateHelpIndex (reverse Help_literal) true.
Proof.
  split; [exact Help_literal_ranges|].
  split; [exact Help_literal_reverse_ranges|].
  exact (GenerateHelpIndex_deterministic Help_init Help_literal
           (reverse Help_literal) true
           Help_literal_ranges Help_literal_reverse_ranges).
Defined.

(** Without the sorts the order of the range would show: the slices before
    sorting differ between two orders. *)
Example range_order_shows_before_sorting :
  commands (fold_left (GenerateHelpIndex_step false) Help_literal
              {| commands := []; isupport := []; information := [] |})
  ≠ commands (fold_left (GenerateHelpIndex_step false) (reverse Help_literal)
              {| commands := []; isupport := []; information := [] |}).
Proof. vm_compute. discriminate. Qed.

(** ** The handler *)

Lemma length_lt_1 s : (String.length s <? 1)%nat = true ↔ s = EmptyString.
Proof. destruct s; simpl; [done|]. split; [|done]. by intros ?%Nat.ltb_lt; lia. Qed.

Section handler_cases.
Context `{!strings.Unicode}.
Variables (pkg : Package) (server : Server) (client : Client)
          (msg : IrcMessage).

Lemma helpHandler_empty :
  argument_of msg = EmptyString →
  helpHandler pkg server client msg = (false, sendHelp client "HELPOP" usage).
Proof. unfold helpHandler, argument_of. by intros ->. Qed.

Lemma helpHandler_index_vars :
  argument_of msg = "index" →
  helpHandler pkg server client msg =
  (false, sendHelp client "HELP"
            (if flags client Operator then HelpIndexOpers pkg
             else HelpIndex pkg)).
Proof.
  unfold helpHandler, argument_of. intros ->. simpl.
  by destruct (flags client Operator).
Qed.

(** Past the two special cases the handler reads the registry. *)
Lemma helpHandler_lookup :
  argument_of msg ≠ EmptyString → argument_of msg ≠ "index" →
  helpHandler pkg server client msg =
  match Help pkg !! argument_of msg with
  | Some e =>
      if negb (oper e) || flags client Operator
      then (false, sendHelp client (strings.ToUpper (argument_of msg)) (text e))
      else not_found server client msg
  | None => not_found server client msg
  end.
Proof.
  unfold helpHandler, argument_of, not_found. intros Hne Hni.
  destruct (String.length _ <? 1)%nat eqn:Hlen.
  { by apply length_lt_1 in Hlen. }
  destruct (String.eqb _ "index") eqn:Hidx.
  { by apply String.eqb_eq in Hidx. }
  destruct (Help pkg !! _) as [e|]; [|done].
  by destruct (oper e), (flags client Operator).
Qed.

Lemma helpHandler_found e :
  argument_of msg ≠ EmptyString → argument_of msg ≠ "index" →
  Help pkg !! argument_of msg = Some e →
  oper e = false ∨ flags client Operator = true →
  helpHandler pkg server client msg =
  (false, sendHelp client (strings.ToUpper (argument_of msg)) (text e)).
Proof.
  intros Hne Hni Hm Hgate. rewrite helpHandler_lookup, Hm by done.
  by destruct Hgate as [-> | ->]; [|rewrite orb_true_r].
Qed.

Lemma helpHandler_restricted e :
  argument_of msg ≠ EmptyString → argument_of msg ≠ "index" →
  Help pkg !! argument_of msg = Some e →
  oper e = true → flags client Operator = false →
  helpHandler pkg server client msg = not_found server client msg.
Proof.
  intros Hne Hni Hm Ho Hf. by rewrite helpHandler_lookup, Hm, Ho, Hf.
Qed.

Lemma helpHandler_absent :
  argument_of msg ≠ EmptyString → argument_of msg ≠ "index" →
  Help pkg !! argument_of msg = None →
  helpHandler pkg server client msg = not_found server client msg.
Proof. intros Hne Hni Hm. by rewrite helpHandler_lookup, Hm. Qed.
End handler_cases.

(** The same with the query named. *)
Lemma helpHandler_found_key `{!strings.Unicode} pkg srv client msg n e :
  argument_of msg = n → n ≠ EmptyString → n ≠ "index" →
  Help pkg !! n = Some e →
  oper e = false ∨ flags client Operator = true →
  helpHandler pkg srv client msg =
  (false, sendHelp client (strings.ToUpper n) (text e)).
Proof.
  intros <- Hne Hni Hm Hgate. by apply helpHandler_found.
Qed.

(** *** The keys of the registry of the source *)

(** Every key is made of ASCII bytes, is in lower case with no space around
    it, is not empty and not the reserved word; its upper case holds no
    space and comes back to it in lower case. *)
Lemma Help_literal_keys :
  Forall (λ kv : string * HelpEntry,
            kv.1 ≠ EmptyString ∧ kv.1 ≠ "index" ∧
            strings.is_ascii kv.1 = true ∧
            strings.TrimSpaceASCII kv.1 = kv.1 ∧
            strings.ToLowerASCII kv.1 = kv.1 ∧
            strings.is_ascii (strings.ToUpperASCII kv.1) = true ∧
            strings.Contains (strings.ToUpperASCII kv.1) strings.SP = false ∧
            strings.TrimSpaceASCII (strings.ToUpperASCII kv.1)
              = strings.ToUpperASCII kv.1 ∧
            strings.ToLowerASCII (strings.ToUpperASCII kv.1) = kv.1)
         Help_literal.
Proof. apply (bool_decide_unpack _). vm_compute. exact I. Qed.

Lemma Help_init_lookup n e : Help_init !! n = Some e ↔ (n, e) ∈ Help_literal.
Proof. symmetry. apply elem_of_list_to_map, Help_literal_NoDup. Qed.

(** So, whatever Go's functions do beyond ASCII, every key is its own
    query, and so is its upper case. *)
Lemma Help_init_key `{!strings.Unicode} n e :
  Help_init !! n = Some e →
  n ≠ EmptyString ∧ n ≠ "index" ∧
  argument_of {| Params := [n] |} = n ∧
  argument_of {| Params := [strings.ToUpper n] |} = n ∧
  strings.Contains (strings.ToUpper n) strings.SP = false.
Proof.
  intros Hin%Help_init_lookup.
  destruct (proj1 (Forall_forall _ _) Help_literal_keys (n, e) Hin)
    as (Hne & Hni & Ha & Ht & Hl & Hua & Hus & Hut & Hul).
  simpl in *. split; [done|]. split; [done|].
  unfold argument_of. cbn [Params strings.Join].
  rewrite (strings.ToUpper_ascii n Ha).
  rewrite !strings.TrimSpace_ascii by done. rewrite Ht, Hut.
  rewrite !strings.ToLower_ascii by done. by rewrite Hl, Hul.
Qed.

(** Every duplicate has an original under another name: an entry that is
    no duplicate, with the same text and the same gate. *)
Lemma Help_literal_duplicates :
  Forall (λ kv : string * HelpEntry,
            duplicate kv.2 = true →
            Exists (λ kv' : string * HelpEntry,
                      kv'.1 ≠ kv.1 ∧ duplicate kv'.2 = false ∧
                      text kv'.2 = text kv.2 ∧ oper kv'.2 = oper kv.2)
                   Help_literal) Help_literal.
Proof. apply (bool_decide_unpack _). vm_compute. exact I. Qed.

Lemma Help_init_duplicate n e :
  Help_init !! n = Some e → duplicate e = true →
  ∃ c e', Help_init !! c = Some e' ∧ c ≠ n ∧ duplicate e' = false ∧
          text e' = text e ∧ oper e' = oper e.
Proof.
  intros Hin%Help_init_lookup Hdup.
  pose proof (proj1 (Forall_forall _ _) Help_literal_duplicates (n, e) Hin Hdup)
    as ([c e'] & Hin' & ? & ? & ? & ?)%Exists_exists.
  exists c, e'. by rewrite Help_init_lookup.
Qed.

(** A text of lines under a label without a space, as [sendHelp] frames
    it. *)
Lemma sendHelp_label client label l rest :
  strings.Contains label strings.SP = false →
  Forall (λ s, strings.Contains s strings.LF = false) (l :: rest) →
  outbox (sendHelp client label (strings.Join (l :: rest) NL)) =
    outbox client ++
    MkLine (name (server client)) RPL_HELPSTART [label; l] ::
    map (λ x, MkLine (name (server client)) RPL_HELPTXT [label; x]) rest ++
    [MkLine (name (server client)) RPL_ENDOFHELP [label; "End of /HELPOP"]].
Proof.
  intros Hlabel Hlines.
  rewrite (sendHelp_outbox client label (strings.Join (l :: rest) NL) l rest
             (Split_Join _ _ _ Hlines)).
  by rewrite (Split_free _ _ Hlabel).
Qed.

(** C5: for every entry [t] of the registry that is for operators, under
    its name [n]: [n] is its own query, and a request whose query is [n]
    gets, from a client that is no operator, the one error line (the
    parameters of the request as they came, then Help not found) and, from
    an operator, the text of [t] framed: its first line on a HELPSTART
    line, its further lines on HELPTXT lines, then the ENDOFHELP line, each
    under the upper-case name. *)
Theorem helpHandler_operator_entry `{!strings.Unicode} pkg srv client n t :
  Help pkg = Help_init → Help_init !! n = Some t → oper t = true →
  argument_of {| Params := [n] |} = n
  ∧ ∀ msg, argument_of msg = n →
      (flags client Operator = false →
       helpHandler pkg srv client msg =
       (false, Send client (name srv) ERR_HELPNOTFOUND
                 (Params msg ++ ["Help not found"]))
       ∧ sent client (helpHandler pkg srv client msg).2 =
         [MkLine (name srv) ERR_HELPNOTFOUND
                 (Params msg ++ ["Help not found"])])
      ∧ (flags client Operator = true →
         (helpHandler pkg srv client msg).1 = false
         ∧ ∃ l rest,
             text t = strings.Join (l :: rest) NL
             ∧ Forall (λ s, strings.Contains s strings.LF = false) (l :: rest)
             ∧ outbox (helpHandler pkg srv client msg).2 =
               outbox client ++
               MkLine (name (server client)) RPL_HELPSTART
                      [strings.ToUpper n; l] ::
               map (λ x, MkLine (name (server client)) RPL_HELPTXT
                                [strings.ToUpper n; x]) rest ++
               [MkLine (name (server client)) RPL_ENDOFHELP
                       [strings.ToUpper n; "End of /HELPOP"]]).
Proof.
  intros Hpkg Hm Ho.
  destruct (Help_init_key n t Hm) as (Hne & Hni & Harg & _ & Hlabel).
  split; [done|]. intros msg Hq. rewrite <- Hpkg, <- Hq in Hm.
  rewrite <- Hq in Hne, Hni. split; intros Hflag.
  - rewrite (helpHandler_restricted pkg srv client msg t) by done.
    split; [done|]. by apply sent_app.
  - rewrite (helpHandler_found pkg srv client msg t) by auto.
    rewrite Hq. split; [reflexivity|].
    destruct (text_lines (text t)) as (l & rest & Htext & Hlines).
    exists l, rest. split; [done|]. split; [done|].
    cbn [snd]. rewrite Htext. by apply sendHelp_label.
Qed.

Lemma helpHandler_operator_entry_witness :
  Help package_init = Help_init ∧
  Help_init !! "kill" =
    Some {| oper := true;
            text := "KILL <nickname> [reason]

Removes the given user from the network, showing them the reason if it is
supplied.";
            helpType := CommandHelpEntry; duplicate := false |} ∧
  sent (example_client false)
       (helpHandler package_init example_server (example_client false)
                    {| Params := ["kill"] |}).2 =
  [MkLine "oragono.test" ERR_HELPNOTFOUND ["kill"; "Help not found"]].
Proof.
  assert (Help_init !! "kill" =
    Some {| oper := true;
            text := "KILL <nickname> [reason]

Removes the given user from the network, showing them the reason if it is
supplied.";
            helpType := CommandHelpEntry; duplicate := false |}) as Hkill
    by (by vm_compute).
  split; [reflexivity|]. split; [exact Hkill|].
  exact (proj2 (proj1 (proj2
    (helpHandler_operator_entry package_init example_server
       (example_client false) "kill" _ eq_refl Hkill eq_refl)
    {| Params := ["kill"] |} eq_refl) eq_refl)).
Defined.

(** The same request from an operator, line by line. *)
Example helpHandler_kill_operator :
  helpHandler package_init example_server (example_client true)
              {| Params := ["KILL"] |} =
  (false,
   {| server := example_server;
      flags := flags (example_client true);
      outbox :=
        [ MkLine "oragono.test" RPL_HELPSTART ["KILL"; "KILL <nickname> [reason]"];
          MkLine "oragono.test" RPL_HELPTXT ["KILL"; EmptyString];
          MkLine "oragono.test" RPL_HELPTXT
            ["KILL";
             "Removes the given user from the network, showing them the reason if it is"];
          MkLine "oragono.test" RPL_HELPTXT ["KILL"; "supplied."];
          MkLine "oragono.test" RPL_ENDOFHELP ["KILL"; "End of /HELPOP"] ] |}).
Proof. vm_compute. reflexivity. Qed.

(** Against C6 as worded: the usage text has three lines, the second one
    empty; a body of two lines would make three outbound lines where the
    handler makes four. *)
Lemma usage_is_not_two_lines :
  length (strings.Split usage strings.LF) = 3%nat
  ∧ ¬ ∃ body,
      length (strings.Split body strings.LF) = 2%nat ∧
      helpHandler package_init example_server (example_client false)
                  {| Params := [] |} =
      (false, sendHelp (example_client false) "HELPOP" body).
Proof.
  split; [reflexivity|]. intros (body & Hlen & Heq).
  assert (length (sent (example_client false)
            (helpHandler package_init example_server (example_client false)
               {| Params := [] |}).2) = 4%nat) as Hfour by reflexivity.
  rewrite Heq in Hfour. cbn [snd] in Hfour.
  rewrite sendHelp_sent_length, Hlen in Hfour. discriminate.
Qed.

(** C6, amended: when the query is empty the handler frames the built-in
    usage text under the label HELPOP and returns; the text has three
    lines (two of words around an empty one), so four lines go out; the
    package variables, the registry among them, have no part in it. *)
Theorem helpHandler_usage `{!strings.Unicode} pkg srv client msg :
  argument_of msg = EmptyString →
  helpHandler pkg srv client msg = (false, sendHelp client "HELPOP" usage)
  ∧ (∀ pkg', helpHandler pkg' srv client msg
             = helpHandler pkg srv client msg)
  ∧ outbox (helpHandler pkg srv client msg).2 =
    outbox client ++
    [ MkLine (name (server client)) RPL_HELPSTART ["HELPOP"; "HELPOP <argument>"];
      MkLine (name (server client)) RPL_HELPTXT ["HELPOP"; EmptyString];
      MkLine (name (server client)) RPL_HELPTXT
        ["HELPOP";
         "Get an explanation of <argument>, or " +:+ DQ +:+ "index" +:+ DQ
           +:+ " for a list of help topics."];
      MkLine (name (server client)) RPL_ENDOFHELP ["HELPOP"; "End of /HELPOP"] ].
Proof.
  intros Hq. split; [by apply helpHandler_empty|]. split.
  - intros pkg'. by rewrite !helpHandler_empty.
  - assert (strings.Split usage strings.LF =
            [ "HELPOP <argument>"; EmptyString;
              "Get an explanation of <argument>, or " +:+ DQ +:+ "index" +:+ DQ
                +:+ " for a list of help topics." ]) as Hsplit
      by (vm_compute; reflexivity).
    rewrite helpHandler_empty by done. cbn [snd].
    rewrite (sendHelp_outbox client "HELPOP" usage _ _ Hsplit).
    reflexivity.
Qed.

Lemma helpHandler_usage_witness :
  argument_of {| Params := [" "; EmptyString] |} = EmptyString ∧
  outbox (helpHandler package_init example_server (example_client false)
                      {| Params := [" "; EmptyString] |}).2 =
  [ MkLine "oragono.test" RPL_HELPSTART ["HELPOP"; "HELPOP <argument>"];
    MkLine "oragono.test" RPL_HELPTXT ["HELPOP"; EmptyString];
    MkLine "oragono.test" RPL_HELPTXT
      ["HELPOP";
       "Get an explanation of <argument>, or " +:+ DQ +:+ "index" +:+ DQ
         +:+ " for a list of help topics."];
    MkLine "oragono.test" RPL_ENDOFHELP ["HELPOP"; "End of /HELPOP"] ].
Proof.
  split; [reflexivity|].
  exact (proj2 (proj2 (helpHandler_usage package_init example_server
                  (example_client false) {| Params := [" "; EmptyString] |}
                  eq_refl))).
Defined.

(** Against C7 as worded: help.go declares the two index variables with
    place-holder words and does not assign them, and the handler frames the
    variable, not what the generator returns. *)
Lemma helpHandler_index_declared :
  outbox (helpHandler package_init example_server (example_client false)
                      {| Params := ["index"] |}).2 =
  [ MkLine "oragono.test" RPL_HELPSTART
      ["HELP"; "list of all help topics for regular users"];
    MkLine "oragono.test" RPL_ENDOFHELP ["HELP"; "End of /HELPOP"] ]
  ∧ helpHandler package_init example_server (example_client false)
                {| Params := ["index"] |}
    ≠ (false, sendHelp (example_client false) "HELP"
                (GenerateHelpIndex Help_literal false)).
Proof.
  split; [reflexivity|]. intros Heq.
  apply (f_equal (λ r, length (outbox r.2))) in Heq.
  vm_compute in Heq. discriminate Heq.
Qed.

(** C7, amended: when the query is the word index the handler frames under
    the label HELP the text of a package variable, [HelpIndexOpers] for an
    operator and [HelpIndex] for any other client, and returns; it does not
    call the generator.  The framed text is the index generated for the
    caller's operator flag when the two variables have been assigned what
    [GenerateHelpIndex] returns for operators and for regular users. *)
Theorem helpHandler_index `{!strings.Unicode} pkg srv client msg :
  argument_of msg = "index" →
  (helpHandler pkg srv client msg).1 = false
  ∧ (∃ l rest,
       (if flags client Operator then HelpIndexOpers pkg else HelpIndex pkg)
         = strings.Join (l :: rest) NL
       ∧ Forall (λ s, strings.Contains s strings.LF = false) (l :: rest)
       ∧ outbox (helpHandler pkg srv client msg).2 =
         outbox client ++
         MkLine (name (server client)) RPL_HELPSTART ["HELP"; l] ::
         map (λ x, MkLine (name (server client)) RPL_HELPTXT ["HELP"; x]) rest ++
         [MkLine (name (server client)) RPL_ENDOFHELP ["HELP"; "End of /HELPOP"]])
  ∧ (∀ iter iter' iter'',
       ranges (Help pkg) iter → ranges (Help pkg) iter' →
       ranges (Help pkg) iter'' →
       HelpIndex pkg = GenerateHelpIndex iter false →
       HelpIndexOpers pkg = GenerateHelpIndex iter' true →
       (if flags client Operator then HelpIndexOpers pkg else HelpIndex pkg)
         = GenerateHelpIndex iter'' (flags client Operator)).
Proof.
  intros Hq. rewrite helpHandler_index_vars by done. split; [done|]. split.
  - destruct (text_lines (if flags client Operator then HelpIndexOpers pkg
                          else HelpIndex pkg)) as (l & rest & Htext & Hlines).
    exists l, rest. split; [done|]. split; [done|].
    cbn [snd]. rewrite Htext. by apply sendHelp_label.
  - unfold ranges. intros iter iter' iter'' Hr Hr' Hr'' Hidx Hidx'.
    destruct (flags client Operator).
    + rewrite Hidx'. apply GenerateHelpIndex_perm. by rewrite Hr', Hr''.
    + rewrite Hidx. apply GenerateHelpIndex_perm. by rewrite Hr, Hr''.
Qed.

Lemma helpHandler_index_witness :
  argument_of {| Params := [" Index"] |} = "index" ∧
  outbox (helpHandler package_init example_server (example_client true)
                      {| Params := [" Index"] |}).2 =
  [ MkLine "oragono.test" RPL_HELPSTART
      ["HELP"; "list of all help topics for opers"];
    MkLine "oragono.test" RPL_ENDOFHELP ["HELP"; "End of /HELPOP"] ].
Proof.
  assert (argument_of {| Params := [" Index"] |} = "index") as Hq
    by reflexivity.
  split; [exact Hq|].
  destruct (proj1 (proj2 (helpHandler_index package_init example_server
                            (example_client true)
                            {| Params := [" Index"] |} Hq)))
    as (l & rest & Htext & Hlines & Hout).
  pose proof (Split_Join strings.LF l rest Hlines) as Hsplit.
  change (String strings.LF EmptyString) with NL in Hsplit.
  rewrite <- Htext in Hsplit. vm_compute in Hsplit.
  injection Hsplit as <- <-. exact Hout.
Defined.

(** With the variables assigned from the generator, as [memoize] does, the
    same request is answered with the generated index. *)
Example helpHandler_index_memoized :
  helpHandler (memoize package_init Help_literal (reverse Help_literal))
              example_server (example_client true) {| Params := ["index"] |}
  = (false, sendHelp (example_client true) "HELP"
              (GenerateHelpIndex Help_literal true)).
Proof. vm_compute. reflexivity. Qed.

(** C9: to a client that is no operator, with the same request, a name
    that the registry holds for operators only and a name that the registry
    does not hold give the same outcome, the one error line: same numeric,
    same parameters echoed, same closing words. *)
Theorem helpHandler_not_found_same `{!strings.Unicode} pkg pkg' srv client msg e :
  flags client Operator = false →
  argument_of msg ≠ EmptyString → argument_of msg ≠ "index" →
  Help pkg !! argument_of msg = Some e → oper e = true →
  Help pkg' !! argument_of msg = None →
  helpHandler pkg srv client msg = helpHandler pkg' srv client msg
  ∧ sent client (helpHandler pkg srv client msg).2 =
    [MkLine (name srv) ERR_HELPNOTFOUND (Params msg ++ ["Help not found"])]
  ∧ sent client (helpHandler pkg' srv client msg).2 =
    [MkLine (name srv) ERR_HELPNOTFOUND (Params msg ++ ["Help not found"])].
Proof.
  intros Hflag Hne Hni Hm Ho Hm'.
  rewrite (helpHandler_restricted pkg srv client msg e) by done.
  rewrite (helpHandler_absent pkg' srv client msg) by done.
  split; [done|]. split; by apply sent_app.
Qed.

Lemma helpHandler_not_found_same_witness :
  (∃ e, Help package_init !! "kill" = Some e ∧ oper e = true) ∧
  Help package_without_kill !! "kill" = None ∧
  helpHandler package_init example_server (example_client false)
              {| Params := ["KILL"] |} =
  helpHandler package_without_kill example_server (example_client false)
              {| Params := ["KILL"] |} ∧
  sent (example_client false)
       (helpHandler package_init example_server (example_client false)
                    {| Params := ["KILL"] |}).2 =
  [MkLine "oragono.test" ERR_HELPNOTFOUND ["KILL"; "Help not found"]].
Proof.
  assert (Help package_init !! "kill" = Some
            {| oper := true; text := _; helpType := CommandHelpEntry;
               duplicate := false |}) as Hkill by (vm_compute; reflexivity).
  assert (Help package_without_kill !! "kill" = None) as Hnone
    by apply lookup_delete_eq.
  assert (argument_of {| Params := ["KILL"] |} = "kill") as Hq by reflexivity.
  pose proof (helpHandler_not_found_same package_init package_without_kill
                example_server (example_client false) {| Params := ["KILL"] |}
                _ eq_refl
                ltac:(rewrite Hq; discriminate) ltac:(rewrite Hq; discriminate)
                Hkill eq_refl Hnone) as (Hsame & Hline & _).
  split; [eauto|]. split; [exact Hnone|]. split; [exact Hsame|exact Hline].
Defined.

(** C10: for every entry [e] of the registry that is a duplicate, under its
    name [n]: the text of neither index shows [n]; and there is an
    original, an entry [e'] that is no duplicate under another name [c],
    with the same text and the same gate, such that for every client the
    gate lets through the request for [n] and the request for [c] are both
    answered with a frame of the lines of that one text, each under its own
    upper-case name. *)
Theorem helpHandler_duplicate_entry `{!strings.Unicode} pkg iter iter' n e :
  Help pkg = Help_init → ranges Help_init iter → ranges Help_init iter' →
  Help_init !! n = Some e → duplicate e = true →
  (n ∉ names_in (GenerateHelpIndex iter false))
  ∧ (n ∉ names_in (GenerateHelpIndex iter' true))
  ∧ ∃ c e',
      Help_init !! c = Some e' ∧ c ≠ n ∧ duplicate e' = false ∧
      text e' = text e ∧ oper e' = oper e ∧
      ∃ l rest,
        text e = strings.Join (l :: rest) NL
        ∧ Forall (λ s, strings.Contains s strings.LF = false) (l :: rest)
        ∧ ∀ srv client,
            oper e = false ∨ flags client Operator = true →
            outbox (helpHandler pkg srv client {| Params := [n] |}).2 =
              outbox client ++
              MkLine (name (server client)) RPL_HELPSTART
                     [strings.ToUpper n; l] ::
              map (λ x, MkLine (name (server client)) RPL_HELPTXT
                               [strings.ToUpper n; x]) rest ++
              [MkLine (name (server client)) RPL_ENDOFHELP
                      [strings.ToUpper n; "End of /HELPOP"]]
            ∧ outbox (helpHandler pkg srv client {| Params := [c] |}).2 =
              outbox client ++
              MkLine (name (server client)) RPL_HELPSTART
                     [strings.ToUpper c; l] ::
              map (λ x, MkLine (name (server client)) RPL_HELPTXT
                               [strings.ToUpper c; x]) rest ++
              [MkLine (name (server client)) RPL_ENDOFHELP
                      [strings.ToUpper c; "End of /HELPOP"]].
Proof.
  intros Hpkg Hrange Hrange' Hm Hdup.
  assert (∀ it b, ranges Help_init it →
                  n ∉ names_in (GenerateHelpIndex it b)) as Hhidden.
  { intros it b Hit.
    rewrite (names_in_index_keys Help_init it b n Hit Help_init_one_line).
    intros (info & Hm' & Hd & _). congruence. }
  split; [by apply Hhidden|]. split; [by apply Hhidden|].
  destruct (Help_init_duplicate n e Hm Hdup) as (c & e' & Hc & Hcn & Hd' & Ht & Ho).
  exists c, e'. do 5 (split; [done|]).
  destruct (text_lines (text e)) as (l & rest & Htext & Hlines).
  exists l, rest. split; [done|]. split; [done|].
  intros srv client Hgate.
  destruct (Help_init_key n e Hm) as (Hne & Hni & Harg & _ & Hlabel).
  destruct (Help_init_key c e' Hc) as (Hce & Hci & Hcarg & _ & Hclabel).
  split.
  - rewrite <- Hpkg in Hm.
    rewrite (helpHandler_found_key pkg srv client _ n e Harg Hne Hni Hm Hgate).
    cbn [snd]. rewrite Htext. by apply sendHelp_label.
  - rewrite <- Hpkg in Hc. rewrite <- Ho in Hgate.
    rewrite (helpHandler_found_key pkg srv client _ c e' Hcarg Hce Hci Hc Hgate).
    cbn [snd]. rewrite Ht, Htext. by apply sendHelp_label.
Qed.

Lemma helpHandler_duplicate_entry_witness :
  Help package_init = Help_init ∧
  (∃ e, Help_init !! "cmodes" = Some e ∧ duplicate e = true ∧
        text e = cmodeHelpText) ∧
  ("cmodes" ∉ names_in (GenerateHelpIndex Help_literal false)) ∧
  ("cmodes" ∉ names_in (GenerateHelpIndex (reverse Help_literal) true)).
Proof.
  assert (Help_init !! "cmodes" = Some
            {| oper := false; text := cmodeHelpText;
               helpType := InformationHelpEntry; duplicate := true |}) as Hm
    by (vm_compute; reflexivity).
  pose proof (helpHandler_duplicate_entry package_init Help_literal
                (reverse Help_literal) "cmodes" _ eq_refl
                Help_literal_ranges Help_literal_reverse_ranges Hm eq_refl)
    as (Hgen & Hop & _).
  split; [reflexivity|]. split; [eauto|]. split; [exact Hgen|exact Hop].
Defined.

(** The requests for cmodes and for cmode, line by line: the same lines
    under two labels. *)
Example helpHandler_cmodes_cmode :
  (λ l, (command l, drop 1 (params l))) <$>
    outbox (helpHandler package_init example_server (example_client false)
                        {| Params := ["cmodes"] |}).2
  = (λ l, (command l, drop 1 (params l))) <$>
    outbox (helpHandler package_init example_server (example_client false)
                        {| Params := ["cmode"] |}).2
  ∧ length (outbox (helpHandler package_init example_server
                      (example_client false) {| Params := ["cmodes"] |}).2)
    = 25%nat
  ∧ (params <$> outbox (helpHandler package_init example_server
                          (example_client false) {| Params := ["cmodes"] |}).2)
      !! 0%nat = Some ["CMODES"; "== Channel Modes =="].
Proof. vm_compute. done. Qed.

(** The three duplicates of the source and their originals. *)
Example duplicates_of_the_registry :
  (filter (λ kv : string * HelpEntry, duplicate kv.2 = true) Help_literal).*1
  = ["cmodes"; "umodes"; "snomask"]
  ∧ text <$> Help_init !! "cmodes" = text <$> Help_init !! "cmode"
  ∧ text <$> Help_init !! "umodes" = text <$> Help_init !! "umode"
  ∧ text <$> Help_init !! "snomask" = text <$> Help_init !! "snomasks".
Proof. by vm_compute. Qed.

Lemma payload_line pfx cmd label x :
  payload (MkLine pfx cmd (label ++ [x])) = Some x.
Proof. unfold payload. cbn [params]. apply last_snoc. Qed.

Lemma payload_lines pfx cmd label rest tail :
  payload <$> (map (λ x, MkLine pfx cmd (label ++ [x])) rest ++ tail) =
  (Some <$> rest) ++ (payload <$> tail).
Proof.
  induction rest as [|x rest IH]; [done|].
  cbn [map app]. by rewrite !fmap_cons, payload_line, IH.
Qed.

Lemma sendHelp_payloads client name_ text :
  payload <$> sent client (sendHelp client name_ text) =
  Some <$> (strings.Split text strings.LF ++ ["End of /HELPOP"]).
Proof.
  destruct (strings.Split text strings.LF) as [|line rest] eqn:Hsplit.
  { by destruct (Split_not_nil strings.LF text). }
  rewrite (sent_app _ _ _ (sendHelp_outbox _ name_ _ _ _ Hsplit)).
  rewrite fmap_cons, payload_line, payload_lines.
  rewrite (fmap_app Some), (fmap_cons Some line). cbn [app]. do 2 f_equal.
  by rewrite !fmap_cons, payload_line.
Qed.


(** * Further properties of the code *)

(** ** What a call of the handler does to the client *)

Lemma sendHelp_extends client name_ text :
  outbox (sendHelp client name_ text) =
  outbox client ++ sent client (sendHelp client name_ text).
Proof.
  destruct (strings.Split text strings.LF) as [|line rest] eqn:Hsplit.
  { by destruct (Split_not_nil strings.LF text). }
  pose proof (sendHelp_outbox client name_ text line rest Hsplit) as Hout.
  by rewrite (sent_app _ _ _ Hout).
Qed.

Lemma command_lines pfx cmd label (rest : list string) :
  command <$> map (λ x, MkLine pfx cmd (label ++ [x])) rest =
  replicate (length rest) cmd.
Proof.
  induction rest as [|x rest IH]; [done|].
  cbn [map length replicate]. by rewrite fmap_cons, IH.
Qed.

Lemma sendHelp_commands client name_ text :
  command <$> sent client (sendHelp client name_ text) =
  RPL_HELPSTART ::
  replicate (length (strings.Split text strings.LF) - 1) RPL_HELPTXT ++
  [RPL_ENDOFHELP].
Proof.
  destruct (strings.Split text strings.LF) as [|line rest] eqn:Hsplit.
  { by destruct (Split_not_nil strings.LF text). }
  rewrite (sent_app _ _ _ (sendHelp_outbox _ name_ _ _ _ Hsplit)).
  replace (length (line :: rest) - 1) with (length rest) by (simpl; lia).
  by rewrite fmap_cons, fmap_app, command_lines.
Qed.

Lemma sendHelp_prefixes client name_ text :
  Forall (λ l, prefix l = name (server client))
         (sent client (sendHelp client name_ text)).
Proof.
  destruct (strings.Split text strings.LF) as [|line rest] eqn:Hsplit.
  { by destruct (Split_not_nil strings.LF text). }
  rewrite (sent_app _ _ _ (sendHelp_outbox _ name_ _ _ _ Hsplit)).
  constructor; [done|]. apply Forall_app. split.
  - by apply Forall_map, Forall_true.
  - by repeat constructor.
Qed.

(** The handler ends in one of two ways. *)
Lemma helpHandler_cases `{!strings.Unicode} pkg srv client msg :
  (∃ label text,
      helpHandler pkg srv client msg = (false, sendHelp client label text))
  ∨ helpHandler pkg srv client msg = not_found srv client msg.
Proof.
  destruct (decide (argument_of msg = EmptyString)) as [Hempty|Hne].
  { left. eexists _, _. by apply helpHandler_empty. }
  destruct (decide (argument_of msg = "index")) as [Hindex|Hni].
  { left. eexists _, _. by apply helpHandler_index_vars. }
  rewrite helpHandler_lookup by done.
  destruct (Help pkg !! argument_of msg) as [e|]; [|by right].
  destruct (negb (oper e) || flags client Operator); [|by right].
  left. by eexists _, _.
Qed.

(** X1: whatever the request, the handler returns false, leaves the
    client's server and flags as they were, keeps every line already sent
    and adds at least one. *)
Theorem helpHandler_appends `{!strings.Unicode} pkg srv client msg :
  (helpHandler pkg srv client msg).1 = false
  ∧ server (helpHandler pkg srv client msg).2 = server client
  ∧ flags (helpHandler pkg srv client msg).2 = flags client
  ∧ outbox (helpHandler pkg srv client msg).2 =
    outbox client ++ sent client (helpHandler pkg srv client msg).2
  ∧ sent client (helpHandler pkg srv client msg).2 ≠ [].
Proof.
  destruct (helpHandler_cases pkg srv client msg) as [(label & text & ->) | ->].
  - cbn [fst snd]. split; [done|].
    split; [apply sendHelp_server|]. split; [apply sendHelp_flags|].
    split; [apply sendHelp_extends|].
    intros Hnil. pose proof (sendHelp_sent_length client label text) as Hlen.
    rewrite Hnil in Hlen. simpl in Hlen. lia.
  - unfold not_found. cbn [fst snd Send server flags outbox].
    rewrite (sent_app client _ [MkLine (name srv) ERR_HELPNOTFOUND
                                   (Params msg ++ ["Help not found"])]) by done.
    done.
Qed.

(** X2: the lines of one reply are either the single error line, sent in
    the name of the server the handler was given, or a frame: one
    HELPSTART, some HELPTXT, one ENDOFHELP, all sent in the name of the
    client's server. *)
Theorem helpHandler_reply_shape `{!strings.Unicode} pkg srv client msg :
  (command <$> sent client (helpHandler pkg srv client msg).2
     = [ERR_HELPNOTFOUND]
   ∧ Forall (λ l, prefix l = name srv)
            (sent client (helpHandler pkg srv client msg).2))
  ∨ (∃ k, command <$> sent client (helpHandler pkg srv client msg).2
            = RPL_HELPSTART :: replicate k RPL_HELPTXT ++ [RPL_ENDOFHELP])
    ∧ Forall (λ l, prefix l = name (server client))
             (sent client (helpHandler pkg srv client msg).2).
Proof.
  destruct (helpHandler_cases pkg srv client msg) as [(label & text & ->) | ->].
  - right. cbn [snd]. split; [|apply sendHelp_prefixes].
    eexists. apply sendHelp_commands.
  - left. unfold not_found. cbn [snd].
    rewrite (sent_app client _ [MkLine (name srv) ERR_HELPNOTFOUND
                                   (Params msg ++ ["Help not found"])]) by done.
    split; [done|]. by repeat constructor.
Qed.

(** X3: two requests with the same query get the same answer, except that
    the error line echoes each request's own parameters. *)
Theorem helpHandler_same_query `{!strings.Unicode} pkg srv client msg msg' :
  argument_of msg = argument_of msg' →
  helpHandler pkg srv client msg = helpHandler pkg srv client msg'
  ∨ (helpHandler pkg srv client msg =
       (false, Send client (name srv) ERR_HELPNOTFOUND
                 (Params msg ++ ["Help not found"]))
     ∧ helpHandler pkg srv client msg' =
       (false, Send client (name srv) ERR_HELPNOTFOUND
                 (Params msg' ++ ["Help not found"]))).
Proof.
  intros Hsame.
  destruct (decide (argument_of msg = EmptyString)) as [Hempty|Hne].
  { left. rewrite !helpHandler_empty; congruence. }
  destruct (decide (argument_of msg = "index")) as [Hindex|Hni].
  { left. rewrite !helpHandler_index_vars; congruence. }
  rewrite (helpHandler_lookup pkg srv client msg) by done.
  rewrite (helpHandler_lookup pkg srv client msg') by congruence.
  rewrite <- Hsame.
  destruct (Help pkg !! argument_of msg) as [e|]; [|by right].
  destruct (negb (oper e) || flags client Operator); [by left|by right].
Qed.

Lemma helpHandler_same_query_witness :
  argument_of {| Params := ["KILL"] |} = argument_of {| Params := [" kill"; " "] |}
  ∧ helpHandler package_init example_server (example_client true)
                {| Params := ["KILL"] |} =
    helpHandler package_init example_server (example_client true)
                {| Params := [" kill"; " "] |}.
Proof.
  assert (argument_of {| Params := ["KILL"] |}
          = argument_of {| Params := [" kill"; " "] |}) as Hq by reflexivity.
  split; [exact Hq|].
  destruct (helpHandler_same_query package_init example_server
              (example_client true) {| Params := ["KILL"] |}
              {| Params := [" kill"; " "] |} Hq) as [Heq|[Herr _]].
  - exact Heq.
  - vm_compute in Herr. discriminate Herr.
Defined.

(** ** Replies do not depend on what was sent before *)

Lemma sendHelp_sent_indep c c' name_ text :
  server c = server c' →
  sent c (sendHelp c name_ text) = sent c' (sendHelp c' name_ text).
Proof.
  intros Hs.
  destruct (strings.Split text strings.LF) as [|line rest] eqn:Hsplit.
  { by destruct (Split_not_nil strings.LF text). }
  rewrite (sent_app _ _ _ (sendHelp_outbox c name_ _ _ _ Hsplit)).
  rewrite (sent_app _ _ _ (sendHelp_outbox c' name_ _ _ _ Hsplit)).
  by rewrite Hs.
Qed.

Lemma helpHandler_sent_indep `{!strings.Unicode} pkg srv c c' msg :
  server c = server c' → flags c = flags c' →
  sent c (helpHandler pkg srv c msg).2 = sent c' (helpHandler pkg srv c' msg).2.
Proof.
  intros Hs Hf.
  destruct (decide (argument_of msg = EmptyString)) as [Hempty|Hne].
  { rewrite !helpHandler_empty by done. by apply sendHelp_sent_indep. }
  destruct (decide (argument_of msg = "index")) as [Hindex|Hni].
  { rewrite !helpHandler_index_vars by done. rewrite Hf.
    by apply sendHelp_sent_indep. }
  rewrite !helpHandler_lookup by done. rewrite Hf.
  assert (sent c (not_found srv c msg).2 = sent c' (not_found srv c' msg).2)
    as Herr.
  { unfold not_found. cbn [snd].
    by rewrite !(sent_app _ _ [MkLine (name srv) ERR_HELPNOTFOUND
                                 (Params msg ++ ["Help not found"])]). }
  destruct (Help pkg !! argument_of msg) as [e|]; [|done].
  destruct (negb (oper e) || flags c' Operator); [|done].
  by apply sendHelp_sent_indep.
Qed.

(** X4: a request made a second time on the same connection is answered
    with the same lines as the first time. *)
Theorem helpHandler_repeat `{!strings.Unicode} pkg srv client msg :
  sent (helpHandler pkg srv client msg).2
       (helpHandler pkg srv (helpHandler pkg srv client msg).2 msg).2
  = sent client (helpHandler pkg srv client msg).2.
Proof.
  apply helpHandler_sent_indep.
  - destruct (helpHandler_cases pkg srv client msg) as [(l & t & ->) | ->];
      [apply sendHelp_server|done].
  - destruct (helpHandler_cases pkg srv client msg) as [(l & t & ->) | ->];
      [apply sendHelp_flags|done].
Qed.

(** ** The query of a request of ASCII bytes *)

Lemma lower_idemp c : strings.lower (strings.lower c) = strings.lower c.
Proof. by destruct c as [[] [] [] [] [] [] [] []]. Qed.

Lemma isSpace_lower c : strings.isSpace (strings.lower c) = strings.isSpace c.
Proof. by destruct c as [[] [] [] [] [] [] [] []]. Qed.

Lemma lower_ascii c :
  (nat_of_ascii (strings.lower c) <? 128)%nat = (nat_of_ascii c <? 128)%nat.
Proof. by destruct c as [[] [] [] [] [] [] [] []]. Qed.

Lemma ToLowerASCII_idemp s :
  strings.ToLowerASCII (strings.ToLowerASCII s) = strings.ToLowerASCII s.
Proof.
  unfold strings.ToLowerASCII.
  induction s as [|c s IH]; simpl; [done|]. by rewrite lower_idemp, IH.
Qed.

Lemma TrimLeft_ToLowerASCII s :
  strings.TrimLeft (strings.ToLowerASCII s)
  = strings.ToLowerASCII (strings.TrimLeft s).
Proof.
  unfold strings.ToLowerASCII.
  induction s as [|c s IH]; simpl; [done|]. rewrite isSpace_lower.
  by destruct (strings.isSpace c).
Qed.

Lemma TrimRight_ToLowerASCII s :
  strings.TrimRight (strings.ToLowerASCII s)
  = strings.ToLowerASCII (strings.TrimRight s).
Proof.
  unfold strings.ToLowerASCII.
  induction s as [|c s IH]; simpl; [done|]. rewrite IH, isSpace_lower.
  destruct (strings.TrimRight s); simpl; [|done].
  by destruct (strings.isSpace c).
Qed.

Lemma TrimRight_idemp s :
  strings.TrimRight (strings.TrimRight s) = strings.TrimRight s.
Proof.
  induction s as [|c s IH]; simpl; [done|].
  destruct (strings.TrimRight s) as [|d t] eqn:Ht.
  - destruct (strings.isSpace c) eqn:Hc; simpl; [done|]. by rewrite Hc.
  - cbn [strings.TrimRight]. cbn [strings.TrimRight] in IH. by rewrite IH.
Qed.

(** Trimming on the right leaves a first byte that is no space in place. *)
Lemma TrimLeft_TrimRight s :
  strings.TrimLeft s = s →
  strings.TrimLeft (strings.TrimRight s) = strings.TrimRight s.
Proof.
  destruct s as [|c s]; [done|]. cbn [strings.TrimLeft].
  destruct (strings.isSpace c) eqn:Hc.
  - intros Hbad. apply (f_equal String.length) in Hbad. exfalso.
    assert (∀ t, (String.length (strings.TrimLeft t) ≤ String.length t)%nat)
      as Hle.
    { induction t as [|d t IH]; simpl; [lia|].
      destruct (strings.isSpace d); simpl; lia. }
    specialize (Hle s). simpl in Hbad. lia.
  - intros _. cbn [strings.TrimRight].
    destruct (strings.TrimRight s); rewrite ?Hc; simpl; by rewrite Hc.
Qed.

Lemma TrimLeft_idemp s :
  strings.TrimLeft (strings.TrimLeft s) = strings.TrimLeft s.
Proof.
  induction s as [|c s IH]; simpl; [done|].
  destruct (strings.isSpace c) eqn:Hc; [done|]. simpl. by rewrite Hc.
Qed.

Lemma TrimSpaceASCII_idemp s :
  strings.TrimSpaceASCII (strings.TrimSpaceASCII s) = strings.TrimSpaceASCII s.
Proof.
  unfold strings.TrimSpaceASCII.
  rewrite (TrimLeft_TrimRight _ (TrimLeft_idemp s)).
  apply TrimRight_idemp.
Qed.

Lemma TrimSpaceASCII_ToLowerASCII s :
  strings.TrimSpaceASCII (strings.ToLowerASCII s)
  = strings.ToLowerASCII (strings.TrimSpaceASCII s).
Proof.
  unfold strings.TrimSpaceASCII.
  by rewrite TrimLeft_ToLowerASCII, TrimRight_ToLowerASCII.
Qed.

Lemma is_ascii_ToLowerASCII s :
  strings.is_ascii (strings.ToLowerASCII s) = strings.is_ascii s.
Proof.
  unfold strings.ToLowerASCII.
  induction s as [|c s IH]; simpl; [done|]. by rewrite lower_ascii, IH.
Qed.

Lemma is_ascii_TrimLeft s :
  strings.is_ascii s = true → strings.is_ascii (strings.TrimLeft s) = true.
Proof.
  induction s as [|c s IH]; simpl; [done|].
  intros [Hc Hs]%andb_true_iff.
  destruct (strings.isSpace c); [by apply IH|]. simpl. by rewrite Hc, Hs.
Qed.

Lemma is_ascii_TrimRight s :
  strings.is_ascii s = true → strings.is_ascii (strings.TrimRight s) = true.
Proof.
  induction s as [|c s IH]; simpl; [done|].
  intros [Hc Hs]%andb_true_iff. specialize (IH Hs).
  destruct (strings.TrimRight s) as [|d t].
  - destruct (strings.isSpace c); simpl; [done|]. by rewrite Hc.
  - simpl in *. by rewrite Hc.
Qed.

Lemma is_ascii_TrimSpaceASCII s :
  strings.is_ascii s = true → strings.is_ascii (strings.TrimSpaceASCII s) = true.
Proof. intros Hs. by apply is_ascii_TrimRight, is_ascii_TrimLeft. Qed.

(** On a request of ASCII bytes the query is what the ASCII functions
    give, whatever Go's functions do elsewhere. *)
Lemma argument_of_ascii `{!strings.Unicode} msg :
  strings.is_ascii (strings.Join (Params msg) " ") = true →
  argument_of msg =
  strings.ToLowerASCII (strings.TrimSpaceASCII (strings.Join (Params msg) " ")).
Proof.
  intros Ha. unfold argument_of.
  rewrite strings.TrimSpace_ascii by done.
  by rewrite strings.ToLower_ascii by by apply is_ascii_TrimSpaceASCII.
Qed.

Lemma argument_of_ascii_canonical `{!strings.Unicode} msg :
  strings.is_ascii (strings.Join (Params msg) " ") = true →
  strings.is_ascii (argument_of msg) = true
  ∧ strings.ToLowerASCII (argument_of msg) = argument_of msg
  ∧ strings.TrimSpaceASCII (argument_of msg) = argument_of msg.
Proof.
  intros Ha. rewrite argument_of_ascii by done. split; [|split].
  - rewrite is_ascii_ToLowerASCII. by apply is_ascii_TrimSpaceASCII.
  - apply ToLowerASCII_idemp.
  - by rewrite TrimSpaceASCII_ToLowerASCII, TrimSpaceASCII_idemp.
Qed.

(** X5: for a request whose bytes are all ASCII, the key the handler looks
    up is made of ASCII bytes, has no letter A-Z and no white space at
    either end, and a request made of that key alone has the same key. *)
Theorem argument_of_canonical `{!strings.Unicode} msg :
  strings.is_ascii (strings.Join (Params msg) " ") = true →
  strings.is_ascii (argument_of msg) = true
  ∧ strings.ToLowerASCII (argument_of msg) = argument_of msg
  ∧ strings.TrimSpaceASCII (argument_of msg) = argument_of msg
  ∧ argument_of {| Params := [argument_of msg] |} = argument_of msg.
Proof.
  intros Ha.
  destruct (argument_of_ascii_canonical msg Ha) as (Hascii & Hlower & Htrim).
  do 3 (split; [done|]).
  rewrite (argument_of_ascii {| Params := [argument_of msg] |}) by done.
  cbn [Params strings.Join]. by rewrite Htrim, Hlower.
Qed.

Lemma argument_of_canonical_witness :
  strings.is_ascii (strings.Join (Params {| Params := [" Who"; "IS "] |}) " ")
    = true
  ∧ argument_of {| Params := [" Who"; "IS "] |} = "who is"
  ∧ argument_of {| Params := [argument_of {| Params := [" Who"; "IS "] |}] |}
    = argument_of {| Params := [" Who"; "IS "] |}.
Proof.
  split; [reflexivity|]. split; [reflexivity|].
  exact (proj2 (proj2 (proj2
    (argument_of_canonical (H := strings.ASCII)
       {| Params := [" Who"; "IS "] |} eq_refl)))).
Defined.

(** X6: an entry stored under the empty key or under the word index is
    never read; nor is, by a request of ASCII bytes, an entry stored under a
    key with a byte beyond ASCII, a letter A-Z or white space at an end:
    with or without the entry the request gets the same answer. *)
Theorem helpHandler_unreachable_key `{!strings.Unicode} pkg pkg' srv client
    msg k e :
  k = EmptyString ∨ k = "index"
    ∨ (strings.is_ascii (strings.Join (Params msg) " ") = true
       ∧ (strings.is_ascii k = false ∨ strings.ToLowerASCII k ≠ k
          ∨ strings.TrimSpaceASCII k ≠ k)) →
  Help pkg' = <[k := e]> (Help pkg) →
  HelpIndex pkg' = HelpIndex pkg → HelpIndexOpers pkg' = HelpIndexOpers pkg →
  helpHandler pkg' srv client msg = helpHandler pkg srv client msg.
Proof.
  intros Hk Hhelp Hidx Hidx'.
  destruct (decide (argument_of msg = EmptyString)) as [Hempty|Hne].
  { by rewrite !helpHandler_empty. }
  destruct (decide (argument_of msg = "index")) as [Hindex|Hni].
  { rewrite !helpHandler_index_vars by done. by rewrite Hidx, Hidx'. }
  rewrite !helpHandler_lookup by done.
  assert (k ≠ argument_of msg) as Hother.
  { intros ->. destruct Hk as [?|[?|[Ha Hk]]]; [done|done|].
    destruct (argument_of_ascii_canonical msg Ha) as (Hascii & Hlower & Htrim).
    destruct Hk as [?|[?|?]]; congruence. }
  by rewrite Hhelp, lookup_insert_ne.
Qed.

Lemma helpHandler_unreachable_key_witness :
  strings.is_ascii (strings.Join (Params {| Params := ["Kill"] |}) " ") = true
  ∧ strings.ToLowerASCII "Kill" ≠ "Kill"
  ∧ helpHandler package_with_capital_key example_server (example_client true)
                {| Params := ["Kill"] |} =
    helpHandler package_init example_server (example_client true)
                {| Params := ["Kill"] |}.
Proof.
  assert (strings.ToLowerASCII "Kill" ≠ "Kill") as Hk by discriminate.
  split; [reflexivity|]. split; [exact Hk|].
  exact (helpHandler_unreachable_key (H := strings.ASCII)
           package_init package_with_capital_key
           example_server (example_client true) {| Params := ["Kill"] |}
           "Kill" _
           (or_intror (or_intror (conj eq_refl (or_intror (or_introl Hk)))))
           eq_refl eq_refl eq_refl).
Defined.

(** ** The text survives the framing *)

(** X7: the text that was framed is read back off the frame: its lines,
    none holding a line feed and giving the text when joined by line feeds,
    are what the HELPSTART and HELPTXT lines carry after the label, in
    order, and the last line carries the closing words. *)
Theorem sendHelp_body_round_trip client name_ text :
  ∃ body,
    strings.Join body NL = text
    ∧ Forall (λ s, strings.Contains s strings.LF = false) body
    ∧ payload <$> sent client (sendHelp client name_ text) =
      (Some <$> body) ++ [Some "End of /HELPOP"].
Proof.
  exists (strings.Split text strings.LF). split; [apply Join_Split|].
  split; [apply Split_fields_free|].
  by rewrite sendHelp_payloads, fmap_app.
Qed.
(** ** The index depends on the listed entries only *)

Lemma GenerateHelpIndex_by_listing m m' iter iter' b b' :
  ranges m iter → ranges m' iter' →
  (∀ T n, (∃ info, m !! n = Some info ∧ listed b T info) ↔
          (∃ info, m' !! n = Some info ∧ listed b' T info)) →
  GenerateHelpIndex iter b = GenerateHelpIndex iter' b'.
Proof.
  intros Hr Hr' Hsame. unfold GenerateHelpIndex.
  replace (GenerateHelpIndex_sorted iter' b')
    with (GenerateHelpIndex_sorted iter b); [done|].
  apply Buckets_eq. intros T. rewrite !GenerateHelpIndex_sorted_bucket.
  f_equal. apply sort_Strings_perm, NoDup_Permutation.
  - by eapply listed_names_NoDup.
  - by eapply listed_names_NoDup.
  - intros n. rewrite (listed_names_elem_of m iter) by done.
    rewrite (listed_names_elem_of m' iter') by done. apply Hsame.
Qed.

Lemma ranges_map_to_list m : ranges m (map_to_list m).
Proof. by unfold ranges. Qed.

(** X8: storing under a key an entry that the index leaves out (a
    duplicate, or one for operators when the index is the regular one) has
    the effect on the index of deleting the key. *)
Theorem GenerateHelpIndex_insert_unlisted m iter iter' forOpers k e :
  ranges (<[k := e]> m) iter → ranges (delete k m) iter' →
  duplicate e = true ∨ (oper e = true ∧ forOpers = false) →
  GenerateHelpIndex iter forOpers = GenerateHelpIndex iter' forOpers.
Proof.
  intros Hr Hr' Hout.
  apply (GenerateHelpIndex_by_listing (<[k := e]> m) (delete k m)); [done..|].
  intros T n. destruct (decide (k = n)) as [->|Hkn].
  - rewrite lookup_insert_eq, lookup_delete_eq. unfold listed. split.
    + intros (info & [= <-] & Hd & Ho & _).
      destruct Hout as [?|[? ?]]; [congruence|]. destruct Ho; congruence.
    + by intros (info & ? & _).
  - by rewrite lookup_insert_ne, lookup_delete_ne.
Qed.

Lemma GenerateHelpIndex_insert_unlisted_witness :
  ranges (<["kill" := kill_rewritten]> Help_init)
         (map_to_list (<["kill" := kill_rewritten]> Help_init))
  ∧ ranges (delete "kill" Help_init) (map_to_list (delete "kill" Help_init))
  ∧ GenerateHelpIndex
      (map_to_list (<["kill" := kill_rewritten]> Help_init)) false
    = GenerateHelpIndex (map_to_list (delete "kill" Help_init)) false.
Proof.
  split; [apply ranges_map_to_list|]. split; [apply ranges_map_to_list|].
  exact (GenerateHelpIndex_insert_unlisted Help_init _ _ false "kill"
           kill_rewritten (ranges_map_to_list _) (ranges_map_to_list _)
           (or_intror (conj eq_refl eq_refl))).
Defined.

(** X9: when no entry that is not a duplicate is for operators, the
    regular index and the operator index are the same text. *)
Theorem GenerateHelpIndex_without_operator_entries m iter iter' :
  ranges m iter → ranges m iter' →
  (∀ n info, m !! n = Some info → duplicate info = false → oper info = false) →
  GenerateHelpIndex iter false = GenerateHelpIndex iter' true.
Proof.
  intros Hr Hr' Hnone.
  apply (GenerateHelpIndex_by_listing m m); [done..|].
  intros T n. unfold listed. split.
  - intros (info & ? & ? & ? & ?). exists info. auto.
  - intros (info & Hm & Hd & _ & HT). exists info. eauto 6.
Qed.

Lemma GenerateHelpIndex_without_operator_entries_witness :
  let m : gmap string HelpEntry :=
    filter (λ kv : string * HelpEntry, oper kv.2 = false) Help_init in
  ranges m (map_to_list m) ∧
  (∀ n info, m !! n = Some info → duplicate info = false → oper info = false) ∧
  GenerateHelpIndex (map_to_list m) false = GenerateHelpIndex (map_to_list m) true.
Proof.
  cbv zeta.
  assert (∀ n info,
    filter (λ kv : string * HelpEntry, oper kv.2 = false) Help_init !! n
      = Some info → duplicate info = false → oper info = false) as Hnone.
  { intros n info [_ Ho]%map_lookup_filter_Some _. exact Ho. }
  split; [apply ranges_map_to_list|]. split; [exact Hnone|].
  exact (GenerateHelpIndex_without_operator_entries _ _ _
           (ranges_map_to_list _) (ranges_map_to_list _) Hnone).
Defined.

(** X10: when every entry is left out (the empty registry is one case) the
    index is the bare template: the title and the three headings, each
    followed by an empty section. *)
Theorem GenerateHelpIndex_nothing_listed m iter forOpers :
  ranges m iter →
  (∀ n info, m !! n = Some info →
             duplicate info = true ∨ (oper info = true ∧ forOpers = false)) →
  GenerateHelpIndex iter forOpers =
"= Help Topics =

Commands:


RPL_ISUPPORT Tokens:


Information:
".
Proof.
  intros Hr Hout.
  rewrite (GenerateHelpIndex_by_listing m ∅ iter [] forOpers forOpers);
    [done|done|by unfold ranges; rewrite map_to_list_empty|].
  intros T n. unfold listed. split.
  - intros (info & Hm & Hd & Ho & _).
    destruct (Hout n info Hm) as [?|[? ?]]; [congruence|].
    destruct Ho; congruence.
  - intros (info & Hm & _). by rewrite lookup_empty in Hm.
Qed.

Lemma GenerateHelpIndex_nothing_listed_witness :
  let m : gmap string HelpEntry :=
    filter (λ kv : string * HelpEntry, oper kv.2 = true) Help_init in
  ranges m (map_to_list m) ∧
  (∀ n info, m !! n = Some info →
             duplicate info = true ∨ (oper info = true ∧ false = false)) ∧
  GenerateHelpIndex (map_to_list m) false =
"= Help Topics =

Commands:


RPL_ISUPPORT Tokens:


Information:
".
Proof.
  cbv zeta.
  assert (∀ n info,
    filter (λ kv : string * HelpEntry, oper kv.2 = true) Help_init !! n
      = Some info →
    duplicate info = true ∨ (oper info = true ∧ false = false)) as Hout.
  { intros n info [_ Ho]%map_lookup_filter_Some. right. by split. }
  split; [apply ranges_map_to_list|]. split; [exact Hout|].
  exact (GenerateHelpIndex_nothing_listed _ _ false (ranges_map_to_list _) Hout).
Defined.

(** ** The index and the handler agree *)

(** X11: no key holding a line feed, a name that the text of the index
    generated for a reader shows, and that is its own query, resolves for
    that reader: the request for it is answered with the lines of the text
    of its entry framed under the upper-case name, not with the error. *)
Theorem index_name_resolves `{!strings.Unicode} pkg iter srv client n :
  ranges (Help pkg) iter →
  (∀ k info, Help pkg !! k = Some info →
             strings.Contains k strings.LF = false) →
  n ∈ names_in (GenerateHelpIndex iter (flags client Operator)) →
  argument_of {| Params := [n] |} = n → n ≠ EmptyString → n ≠ "index" →
  ∃ e l rest,
    Help pkg !! n = Some e
    ∧ text e = strings.Join (l :: rest) NL
    ∧ Forall (λ s, strings.Contains s strings.LF = false) (l :: rest)
    ∧ (helpHandler pkg srv client {| Params := [n] |}).1 = false
    ∧ outbox (helpHandler pkg srv client {| Params := [n] |}).2 =
      outbox client ++
      MkLine (name (server client)) RPL_HELPSTART
             (strings.Split (strings.ToUpper n) strings.SP ++ [l]) ::
      map (λ x, MkLine (name (server client)) RPL_HELPTXT
                       (strings.Split (strings.ToUpper n) strings.SP ++ [x]))
          rest ++
      [MkLine (name (server client)) RPL_ENDOFHELP
              (strings.Split (strings.ToUpper n) strings.SP
                 ++ ["End of /HELPOP"])].
Proof.
  intros Hr Hfree Hin Harg Hne Hni.
  rewrite (names_in_index_keys (Help pkg) iter) in Hin by done.
  destruct Hin as (e & Hm & _ & Hgate).
  destruct (text_lines (text e)) as (l & rest & Htext & Hlines).
  exists e, l, rest. do 3 (split; [done|]).
  assert (oper e = false ∨ flags client Operator = true) as Hgate'
    by (destruct Hgate; auto).
  rewrite (helpHandler_found_key pkg srv client _ n e Harg Hne Hni Hm Hgate').
  split; [done|]. cbn [snd].
  apply sendHelp_outbox. rewrite Htext. by apply Split_Join.
Qed.

Lemma index_name_resolves_witness :
  ranges (Help package_init) Help_literal
  ∧ "whois" ∈ names_in (GenerateHelpIndex Help_literal
                          (flags (example_client false) Operator))
  ∧ ∃ e l rest,
      Help package_init !! "whois" = Some e
      ∧ text e = strings.Join (l :: rest) NL
      ∧ outbox (helpHandler package_init example_server (example_client false)
                            {| Params := ["whois"] |}).2 =
        MkLine "oragono.test" RPL_HELPSTART ["WHOIS"; l] ::
        map (λ x, MkLine "oragono.test" RPL_HELPTXT ["WHOIS"; x]) rest ++
        [MkLine "oragono.test" RPL_ENDOFHELP ["WHOIS"; "End of /HELPOP"]].
Proof.
  assert ("whois" ∈ names_in (GenerateHelpIndex Help_literal
                      (flags (example_client false) Operator))) as Hin.
  { apply (bool_decide_unpack _). vm_compute. exact I. }
  assert (argument_of {| Params := ["whois"] |} = "whois") as Hq
    by reflexivity.
  split; [exact Help_literal_ranges|]. split; [exact Hin|].
  destruct (index_name_resolves (H := strings.ASCII) package_init Help_literal
              example_server (example_client false) "whois"
              Help_literal_ranges Help_init_one_line Hin Hq
              ltac:(discriminate) ltac:(discriminate))
    as (e & l & rest & Hm & Htext & _ & _ & Hout).
  exists e, l, rest. split; [exact Hm|]. split; [exact Htext|]. exact Hout.
Defined.

(** ** What a client that is no operator can see *)

(** X12: to a client that is no operator the entries for operators make no
    difference: with the registry cut down to the entries that are open to
    all, the handler gives the same answer to every request (the regular
    index variable being the same), and the regular index is generated the
    same. *)
Theorem non_operator_view `{!strings.Unicode} pkg pkg' srv client msg :
  flags client Operator = false →
  Help pkg' = filter (λ kv : string * HelpEntry, oper kv.2 = false) (Help pkg) →
  HelpIndex pkg' = HelpIndex pkg →
  helpHandler pkg' srv client msg = helpHandler pkg srv client msg
  ∧ ∀ iter iter', ranges (Help pkg) iter → ranges (Help pkg') iter' →
      GenerateHelpIndex iter' false = GenerateHelpIndex iter false.
Proof.
  intros Hflag Hhelp Hidx. split.
  - destruct (decide (argument_of msg = EmptyString)) as [Hempty|Hne].
    { by rewrite !helpHandler_empty. }
    destruct (decide (argument_of msg = "index")) as [Hindex|Hni].
    { rewrite !helpHandler_index_vars by done. by rewrite Hflag, Hidx. }
    rewrite !helpHandler_lookup by done. rewrite Hhelp, Hflag.
    destruct (Help pkg !! argument_of msg) as [e|] eqn:Hm.
    + destruct (oper e) eqn:Ho; simpl.
      * rewrite (proj2 (map_lookup_filter_None _ _ _)); [done|].
        right. intros e' Hm'. simpl. congruence.
      * rewrite (map_lookup_filter_Some_2 _ _ _ e) by done.
        by rewrite Ho.
    + rewrite (proj2 (map_lookup_filter_None _ _ _)); [done|]. by left.
  - intros iter iter' Hr Hr'.
    apply (GenerateHelpIndex_by_listing (Help pkg') (Help pkg)); [done..|].
    intros T n. rewrite Hhelp. unfold listed. split.
    + intros (info & [Hm _]%map_lookup_filter_Some & ?). eauto.
    + intros (info & Hm & Hd & [Ho|?] & HT); [|done]. exists info.
      split; [|auto]. by apply map_lookup_filter_Some.
Qed.

Lemma non_operator_view_witness :
  flags (example_client false) Operator = false
  ∧ Help package_public =
    filter (λ kv : string * HelpEntry, oper kv.2 = false) (Help package_init)
  ∧ helpHandler package_public example_server (example_client false)
                {| Params := ["kill"] |} =
    helpHandler package_init example_server (example_client false)
                {| Params := ["kill"] |}.
Proof.
  split; [reflexivity|]. split; [reflexivity|].
  exact (proj1 (non_operator_view (H := strings.ASCII)
                  package_init package_public example_server
                  (example_client false) {| Params := ["kill"] |}
                  eq_refl eq_refl eq_refl)).
Defined.

(** ** Every topic of the source can be asked for *)

(** X13: every entry of the registry of the source is reachable by the
    clients its gate lets through: asked for under its key, or under the
    key in upper case as the replies show it, the handler sends the lines
    of its text framed under the upper-case key. *)
Theorem Help_init_reachable `{!strings.Unicode} pkg srv client n e :
  Help pkg = Help_init → Help_init !! n = Some e →
  oper e = false ∨ flags client Operator = true →
  ∃ l rest,
    text e = strings.Join (l :: rest) NL
    ∧ Forall (λ s, strings.Contains s strings.LF = false) (l :: rest)
    ∧ outbox (helpHandler pkg srv client {| Params := [n] |}).2 =
      outbox client ++
      MkLine (name (server client)) RPL_HELPSTART [strings.ToUpper n; l] ::
      map (λ x, MkLine (name (server client)) RPL_HELPTXT
                       [strings.ToUpper n; x]) rest ++
      [MkLine (name (server client)) RPL_ENDOFHELP
              [strings.ToUpper n; "End of /HELPOP"]]
    ∧ outbox (helpHandler pkg srv client
                          {| Params := [strings.ToUpper n] |}).2 =
      outbox client ++
      MkLine (name (server client)) RPL_HELPSTART [strings.ToUpper n; l] ::
      map (λ x, MkLine (name (server client)) RPL_HELPTXT
                       [strings.ToUpper n; x]) rest ++
      [MkLine (name (server client)) RPL_ENDOFHELP
              [strings.ToUpper n; "End of /HELPOP"]].
Proof.
  intros Hpkg Hm Hgate.
  destruct (Help_init_key n e Hm) as (Hne & Hni & Harg & Hupper & Hlabel).
  destruct (text_lines (text e)) as (l & rest & Htext & Hlines).
  assert (Help pkg !! n = Some e) as Hm' by by rewrite Hpkg.
  exists l, rest. split; [done|]. split; [done|]. split.
  - rewrite (helpHandler_found_key pkg srv client _ n e Harg Hne Hni Hm' Hgate).
    cbn [snd]. rewrite Htext. by apply sendHelp_label.
  - rewrite (helpHandler_found_key pkg srv client _ n e Hupper Hne Hni Hm' Hgate).
    cbn [snd]. rewrite Htext. by apply sendHelp_label.
Qed.

Lemma Help_init_reachable_witness :
  Help package_init = Help_init
  ∧ Help_init !! "ping" =
    Some {| oper := false;
            text := "PING <args>...

Requests a PONG. Used to check link connectivity.";
            helpType := CommandHelpEntry; duplicate := false |}
  ∧ ∃ l rest,
      "PING <args>...

Requests a PONG. Used to check link connectivity."
        = strings.Join (l :: rest) NL
      ∧ outbox (helpHandler package_init example_server (example_client false)
                            {| Params := ["PING"] |}).2 =
        MkLine "oragono.test" RPL_HELPSTART ["PING"; l] ::
        map (λ x, MkLine "oragono.test" RPL_HELPTXT ["PING"; x]) rest ++
        [MkLine "oragono.test" RPL_ENDOFHELP ["PING"; "End of /HELPOP"]].
Proof.
  assert (Help_init !! "ping" =
    Some {| oper := false;
            text := "PING <args>...

Requests a PONG. Used to check link connectivity.";
            helpType := CommandHelpEntry; duplicate := false |}) as Hm
    by (vm_compute; reflexivity).
  split; [reflexivity|]. split; [exact Hm|].
  destruct (Help_init_reachable (H := strings.ASCII) package_init
              example_server (example_client false) "ping" _ eq_refl Hm
              (or_introl eq_refl))
    as (l & rest & Htext & _ & _ & Hout).
  exists l, rest. split; [exact Htext|exact Hout].
Defined.

(** ** The lines of the index when no key holds a line feed *)

Lemma Split_section lines :
  Forall (λ l, strings.Contains l strings.LF = false) lines →
  strings.Split (strings.Join lines NL) strings.LF = section_lines lines.
Proof.
  destruct lines as [|l rest]; [done|]. intros Hfree.
  by apply Split_Join.
Qed.

Lemma bucket_LF_free iter forOpers T :
  Forall (λ kv : string * HelpEntry, strings.Contains kv.1 strings.LF = false)
         iter →
  Forall (λ l, strings.Contains l strings.LF = false)
         (bucket T (GenerateHelpIndex_sorted iter forOpers)).
Proof.
  intros Hfree. rewrite GenerateHelpIndex_sorted_bucket.
  apply Forall_fmap. rewrite sort_Strings_Permutation.
  unfold listed_names. apply Forall_fmap, Forall_forall.
  intros [n info] [_ Hin]%list_elem_of_filter.
  exact (proj1 (Forall_forall _ _) Hfree _ Hin).
Qed.

(** X14: when no key holds a line feed, the index split at its line feeds
    is the title, an empty line, and then for each of the three sections
    its heading and its entry lines (one empty line if it has none), with
    an empty line between sections. *)
Theorem GenerateHelpIndex_lines iter forOpers :
  Forall (λ kv : string * HelpEntry, strings.Contains kv.1 strings.LF = false)
         iter →
  strings.Split (GenerateHelpIndex iter forOpers) strings.LF =
  ["= Help Topics ="; EmptyString; "Commands:"]
  ++ section_lines (commands (GenerateHelpIndex_sorted iter forOpers))
  ++ [EmptyString; "RPL_ISUPPORT Tokens:"]
  ++ section_lines (isupport (GenerateHelpIndex_sorted iter forOpers))
  ++ [EmptyString; "Information:"]
  ++ section_lines (information (GenerateHelpIndex_sorted iter forOpers)).
Proof.
  intros Hfree.
  pose proof (bucket_LF_free iter forOpers CommandHelpEntry Hfree) as Hc.
  pose proof (bucket_LF_free iter forOpers ISupportHelpEntry Hfree) as Hi.
  pose proof (bucket_LF_free iter forOpers InformationHelpEntry Hfree) as Hf.
  cbn [bucket] in Hc, Hi, Hf.
  rewrite <- (Split_section _ Hc), <- (Split_section _ Hi),
          <- (Split_section _ Hf).
  apply GenerateHelpIndex_Split.
Qed.

Lemma GenerateHelpIndex_lines_witness :
  Forall (λ kv : string * HelpEntry, strings.Contains kv.1 strings.LF = false)
         Help_literal
  ∧ length (strings.Split (GenerateHelpIndex Help_literal false) strings.LF)
    = 55%nat.
Proof.
  assert (Forall (λ kv : string * HelpEntry,
                    strings.Contains kv.1 strings.LF = false) Help_literal)
    as Hfree by (apply (bool_decide_unpack _); vm_compute; exact I).
  split; [exact Hfree|].
  rewrite (GenerateHelpIndex_lines Help_literal false Hfree).
  vm_compute. reflexivity.
Defined.
